(** * exorde-client: the protocol module (exorde/protocol/__init__.py)

    A shallow embedding of the transaction layer of the worker: gas
    estimation with its cache, the nonce read, broadcast and confirmation
    wait, the faucet, faucet selection and the gateway rotation.

    Conventions of the embedding.
    - A coroutine is a state-passing computation [M A]: it takes the
      process state and gives an [outcome] and the state it leaves behind.
      [await] is sequencing; one flow runs at a time.
    - The remote ledger is an abstract [World]; a [web3] handle is the
      record of the RPC methods the module calls on it.  Every call is
      appended to the [trace] of the state together with what it answered,
      so that "how often" and "in which order" are properties of the trace.
    - The Python [dict] [gas_cache] is created once and shared by reference
      by all calls; it is the component [gas_cache] of the state.
    - Python numbers are [PyInt] (unbounded integers) or [PyFloat].  A
      float is represented by the rational it denotes: the products
      [n * 1.5] of this module are multiples of one half, exact in double
      precision for every gas quantity (64-bit in the EVM), and nothing
      else of the arithmetic rounds. *)

From Stdlib Require Import ZArith QArith Qminmax String Ascii List Lia.
From Stdlib Require Import HexadecimalString HexadecimalN.
From stdpp Require Import gmap strings list.

Local Open Scope string_scope.

(* ================================================================= *)
(** ** Python values *)

Inductive pynum : Type :=
| PyInt (z : Z)
| PyFloat (q : Q).

(** The number a Python value denotes. *)
Definition num_val (n : pynum) : Q :=
  match n with
  | PyInt z => inject_Z z
  | PyFloat q => q
  end.

(** [a < b] and [a > b] on numbers of either kind. *)
Definition py_lt (a b : pynum) : bool := negb (Qle_bool (num_val b) (num_val a)).
Definition py_gt (a b : pynum) : bool := py_lt b a.

(** [int * float] and [float + int] give a float. *)
Definition py_mul (a b : pynum) : pynum :=
  match a, b with
  | PyInt x, PyInt y => PyInt (x * y)
  | _, _ => PyFloat (num_val a * num_val b)
  end.

Definition py_add (a b : pynum) : pynum :=
  match a, b with
  | PyInt x, PyInt y => PyInt (x + y)
  | _, _ => PyFloat (num_val a + num_val b)
  end.

(** The builtin [max(a, b)]: the first argument unless the second is
    strictly greater; the value keeps its own type. *)
Definition py_max (a b : pynum) : pynum := if py_gt b a then b else a.

(** Exceptions.  [except Exception] catches the instances of [Exception];
    the others ([KeyboardInterrupt], [asyncio.CancelledError], ...) derive
    from [BaseException] only and pass through such a handler. *)
Inductive exn : Type :=
| PyException (name : string)
| PyBaseException (name : string).

Definition is_Exception (e : exn) : bool :=
  match e with
  | PyException _ => true
  | PyBaseException _ => false
  end.

(* ================================================================= *)
(** ** Transactions *)

(** The transaction dict.  [tx_data] holds the text [str(transaction["data"])]:
    for a transaction built by web3 the hex string ["0x..."], whose
    characters 2..9 are the four bytes of the function selector. *)
Record Transaction : Type := {
  tx_from : option string;
  tx_to : option string;
  tx_nonce : Z;
  tx_gasPrice : Z;
  tx_gas : option pynum;
  tx_value : Z;
  tx_data : string
}.

(** [transaction["gas"] = g] *)
Definition set_gas (t : Transaction) (g : pynum) : Transaction :=
  {| tx_from := tx_from t; tx_to := tx_to t; tx_nonce := tx_nonce t;
     tx_gasPrice := tx_gasPrice t; tx_gas := Some g;
     tx_value := tx_value t; tx_data := tx_data t |}.

Record SignedTransaction : Type := {
  rawTransaction : string;
  signed_hash : string
}.

Record receipt : Type := { transactionHash : string }.

(** The dict [send_raw_transaction] returns. *)
Record sent_result : Type := {
  res_transaction : option Transaction;
  res_current_cid_commit : option string
}.

(* ================================================================= *)
(** ** Effects: outcome, trace, state *)

Inductive outcome (A : Type) : Type :=
| Ret (a : A)            (* normal return *)
| Raise (e : exn)        (* an exception leaves the call *)
| Exit (code : Z).       (* [os._exit]: the process is gone *)

Arguments Ret {A} a.
Arguments Raise {A} e.
Arguments Exit {A} code.

Inductive loglevel : Type := DEBUG | INFO | ERROR | CRITICAL.

(** What the process does to the outside, with what came back.  A log
    record keeps its level and the text of its message; the values
    interpolated into it are left out. *)
Inductive event : Type :=
| EvLog (level : loglevel) (msg : string)
| EvSleep (seconds : Q)
| EvGetTransactionCount (address : string) (answer : exn + Z)
| EvSendRawTransaction (raw : string) (answer : exn + string)
| EvWaitForReceipt (tx_hash : string) (timeout poll_latency : Z)
                   (answer : exn + receipt)
| EvEstimateGas (tx : Transaction) (answer : exn + Z).

(** The key of the gas cache: [(str(data)[2:10], len(str(data)))]. *)
Definition gas_key_t : Type := (string * nat)%type.

(** A web3 handle over a remote [World]: the RPC methods of [w3.eth] the
    module calls, each answering with a value or an exception and moving
    the remote world, and the two local functions of [w3.eth.account],
    which touch no remote side but raise on what they cannot take:
    [from_key(key).address] on a malformed key, [sign_transaction] on a
    malformed field of the transaction (a destination that is not in
    checksum form, for one). *)
Record web3 (World : Type) : Type := {
  eth_get_transaction_count : string -> World -> (exn + Z) * World;
  eth_send_raw_transaction : string -> World -> (exn + string) * World;
  eth_wait_for_transaction_receipt :
    string -> Z -> Z -> World -> (exn + receipt) * World;
  eth_estimate_gas : Transaction -> World -> (exn + Z) * World;
  account_from_key : string -> exn + string;
  account_sign_transaction : Transaction -> string -> exn + SignedTransaction
}.

Arguments eth_get_transaction_count {World} w address _ : rename.
Arguments eth_send_raw_transaction {World} w raw _ : rename.
Arguments eth_wait_for_transaction_receipt {World} w tx_hash timeout poll _ : rename.
Arguments eth_estimate_gas {World} w tx _ : rename.
Arguments account_from_key {World} w key : rename.
Arguments account_sign_transaction {World} w tx key : rename.

Record state (World : Type) : Type := {
  world : World;
  gas_cache : gmap (string * nat) pynum;
  trace : list event
}.

Arguments world {World} s : rename.
Arguments gas_cache {World} s : rename.
Arguments trace {World} s : rename.

Definition M (World A : Type) : Type := state World -> outcome A * state World.

Definition ret {World A} (a : A) : M World A := fun s => (Ret a, s).

Definition bind {World A B} (m : M World A) (k : A -> M World B) : M World B :=
  fun s =>
    match m s with
    | (Ret a, s') => k a s'
    | (Raise e, s') => (Raise e, s')
    | (Exit c, s') => (Exit c, s')
    end.

Declare Scope proto_scope.
Delimit Scope proto_scope with proto.

Notation "x <- m ;; k" := (bind m (fun x => k))
  (at level 100, m at next level, right associativity) : proto_scope.
Notation "m ;; k" := (bind m (fun _ => k))
  (at level 100, right associativity) : proto_scope.

Local Open Scope proto_scope.

Section Protocol.

Context {World : Type}.

(** A value or an exception of local code, in the flow. *)
Definition lift_result {A : Type} (r : exn + A) : M World A :=
  fun s =>
    match r with
    | inr a => (Ret a, s)
    | inl e => (Raise e, s)
    end.

(** [os._exit(code)] *)
Definition os_exit {A} (code : Z) : M World A := fun s => (Exit code, s).

(** [try: body / except Exception as e: handler e] *)
Definition try_except {A} (body : M World A) (handler : exn -> M World A)
    : M World A :=
  fun s =>
    match body s with
    | (Raise e, s') => if is_Exception e then handler e s' else (Raise e, s')
    | r => r
    end.

Definition logging (level : loglevel) (msg : string) : M World unit :=
  fun s =>
    (Ret tt,
     {| world := world s; gas_cache := gas_cache s;
        trace := trace s ++ [EvLog level msg] |}).

(** Time passes at the remote side while the flow sleeps. *)
Variable elapse : Q -> World -> World.

Definition asyncio_sleep (seconds : Q) : M World unit :=
  fun s =>
    (Ret tt,
     {| world := elapse seconds (world s); gas_cache := gas_cache s;
        trace := trace s ++ [EvSleep seconds] |}).

(** A remote call: run it on the world, record call and answer, and
    return the value or raise the exception. *)
Definition remote {A} (call : World -> (exn + A) * World)
    (record : exn + A -> event) : M World A :=
  fun s =>
    let '(answer, w) := call (world s) in
    let s' := {| world := w; gas_cache := gas_cache s;
                 trace := trace s ++ [record answer] |} in
    match answer with
    | inr v => (Ret v, s')
    | inl e => (Raise e, s')
    end.

Definition get_transaction_count (w3 : web3 World) (address : string)
    : M World Z :=
  remote (eth_get_transaction_count w3 address) (EvGetTransactionCount address).

Definition send_raw (w3 : web3 World) (raw : string) : M World string :=
  remote (eth_send_raw_transaction w3 raw) (EvSendRawTransaction raw).

Definition wait_for_transaction_receipt (w3 : web3 World) (tx_hash : string)
    (timeout poll_latency : Z) : M World receipt :=
  remote (eth_wait_for_transaction_receipt w3 tx_hash timeout poll_latency)
         (EvWaitForReceipt tx_hash timeout poll_latency).

Definition remote_estimate_gas (w3 : web3 World) (t : Transaction)
    : M World Z :=
  remote (eth_estimate_gas w3 t) (EvEstimateGas t).

(** The dict operations on [gas_cache]: [key in d], [d[key]] (a
    [KeyError] when absent) and [d[key] = v]. *)
Definition cache_contains (key : gas_key_t) : M World bool :=
  fun s => (Ret (bool_decide (is_Some (gas_cache s !! key))), s).

Definition cache_getitem (key : gas_key_t) : M World pynum :=
  fun s =>
    match gas_cache s !! key with
    | Some v => (Ret v, s)
    | None => (Raise (PyException "KeyError"), s)
    end.

Definition cache_setitem (key : gas_key_t) (v : pynum) : M World unit :=
  fun s =>
    (Ret tt,
     {| world := world s; gas_cache := <[key := v]> (gas_cache s);
        trace := trace s |}).

(* ----------------------------------------------------------------- *)
(** *** send_raw_transaction and the nonce poll *)

(** [sleep_time = i * 1.5 + 1] *)
Definition sleep_time (i : nat) : pynum :=
  py_add (py_mul (PyInt (Z.of_nat i)) (PyFloat (3 # 2))) (PyInt 1).

(** The loop [for i in range(10): ... break], over the attempts left.
    It is written twice in the source, in [send_raw_transaction] on the
    worker's address and in [faucet] on the faucet's, the same but for
    the names of the variables. *)
Fixpoint nonce_poll (read_web3 : web3 World) (address : string)
    (previous_nonce : Z) (attempts : list nat) : M World unit :=
  match attempts with
  | [] => ret tt
  | i :: rest =>
      logging DEBUG "Waiting {sleep_time} seconds for faucet transaction confirmation" ;;
      asyncio_sleep (num_val (sleep_time i)) ;;
      current_nounce <- get_transaction_count read_web3 address ;;
      if (current_nounce >? previous_nonce)%Z
      then ret tt  (* break *)
      else nonce_poll read_web3 address previous_nonce rest
  end.

Definition send_raw_transaction (transaction : SignedTransaction)
    (write_web3 read_web3 : web3 World) (worker_address : string)
    : M World sent_result :=
  try_except
    (previous_nonce <- get_transaction_count read_web3 worker_address ;;
     transaction_hash <- send_raw write_web3 (rawTransaction transaction) ;;
     logging INFO "A transaction has been sent" ;;
     logging INFO "Waiting for transaction confirmation" ;;
     nonce_poll read_web3 worker_address previous_nonce (seq 0 10) ;;
     _ <- wait_for_transaction_receipt read_web3 transaction_hash 120 20 ;;
     ret tt)
    (fun e => logging ERROR "Error sending transaction : {e}") ;;
  logging INFO "A transaction has been confirmed" ;;
  ret {| res_transaction := None; res_current_cid_commit := None |}.

(* ----------------------------------------------------------------- *)
(** *** nonce *)

(** The function falls off its end after the handler: it returns [None]. *)
Definition nonce (worker_address : string) (read_web3 : web3 World)
    : M World (option Z) :=
  try_except
    (n <- get_transaction_count read_web3 worker_address ;; ret (Some n))
    (fun _ => logging ERROR "Error getting nonce ({worker_address})" ;;
              ret None).

(* ----------------------------------------------------------------- *)
(** *** faucet *)

(** [Web3.is_address], the format check of the web3 library. *)
Variable is_address : string -> bool.

Definition faucet_transaction (previous_nounce : Z) (worker_address : string)
    : Transaction :=
  {| tx_from := None;
     tx_to := Some worker_address;
     tx_nonce := previous_nounce;
     tx_gasPrice := 500000;
     tx_gas := Some (PyInt 100000);
     tx_value := 500000000000000;
     tx_data := "b'Hi Exorde!'" |}.

Definition faucet (__balance__ : Z) (write_web3 read_web3 : web3 World)
    (selected_faucet : Z * string) (worker_address : string) : M World unit :=
  (if negb (is_address worker_address)
   then logging CRITICAL "Invalid worker address" ;; os_exit 1
   else ret tt) ;;
  logging INFO "Faucet with '{selected_faucet} and {worker_address}" ;;
  faucet_address <-
    lift_result (account_from_key read_web3 (snd selected_faucet)) ;;
  previous_nounce <- get_transaction_count read_web3 faucet_address ;;
  signed_transaction <-
    lift_result
      (account_sign_transaction read_web3
         (faucet_transaction previous_nounce worker_address)
         (snd selected_faucet)) ;;
  transaction_hash <- send_raw write_web3 (rawTransaction signed_transaction) ;;
  asyncio_sleep 3 ;;
  logging INFO "Waiting for transaction confirmation" ;;
  nonce_poll read_web3 faucet_address previous_nounce (seq 0 10) ;;
  transaction_receipt <-
    wait_for_transaction_receipt read_web3 transaction_hash 120 20 ;;
  logging INFO "SFUEL funding transaction {transaction_receipt.transactionHash.hex()}".

(* ----------------------------------------------------------------- *)
(** *** estimate_gas *)

Definition do_estimate_gas (transaction : Transaction) (read_web3 : web3 World)
    : M World pynum :=
  let gas := PyInt 100000 in  (* default gas amount *)
  raw <- remote_estimate_gas read_web3 transaction ;;
  let estimate := py_mul (PyInt raw) (PyFloat (3 # 2)) in
  let gas :=
    if py_lt estimate (PyInt 100000)
    then py_add estimate (PyInt 500000)
    else gas in
  ret (py_max (PyInt 10000000) gas).

Definition gas_key (transaction : Transaction) : gas_key_t :=
  let function_bytecode := String.substring 2 8 (tx_data transaction) in
  let data_length := String.length (tx_data transaction) in
  (function_bytecode, data_length).

Definition estimate_gas (transaction : Transaction) (read_web3 : web3 World)
    : M World Transaction :=
  let gas_key := gas_key transaction in
  hit <- cache_contains gas_key ;;
  if hit : bool then
    g <- cache_getitem gas_key ;;
    ret (set_gas transaction g)
  else
    estimate <- do_estimate_gas transaction read_web3 ;;
    cache_setitem gas_key estimate ;;
    g <- cache_getitem gas_key ;;
    ret (set_gas transaction g).

End Protocol.

Arguments send_raw_transaction {World} elapse transaction write_web3 read_web3
  worker_address _.
Arguments nonce_poll {World} elapse read_web3 address previous_nonce attempts _.
Arguments faucet {World} elapse is_address __balance__ write_web3 read_web3
  selected_faucet worker_address _.

(* ================================================================= *)
(** ** rotate_gateways *)

Definition gateways : list string := [
  "http://ipfs-gateway.exorde.network/ipfs/";
  "http://ipfs-gateway.exorde.network/ipfs/";
  "http://ipfs-gateway.exorde.network/ipfs/";
  "https://w3s.link/ipfs/";
  "https://ipfs.io/ipfs/";
  "https://ipfs.eth.aragon.network/ipfs/";
  "https://api.ipfsbrowser.com/ipfs/get.php?hash="
].

(** The generator [(gateways[i % len(gateways)] for i in itertools.count())]:
    its state is the next value of the counter. *)
Record gateway_generator : Type := { counter : nat }.

(** Each call builds a generator over a new [itertools.count()]. *)
Definition rotate_gateways (_ : unit) : gateway_generator := {| counter := 0 |}.

(** [next(g)] *)
Definition next_gateway (g : gateway_generator) : string * gateway_generator :=
  (nth (counter g mod List.length gateways) gateways "",
   {| counter := S (counter g) |}).

(** [itertools.islice(g, n)], consumed: the [n] next items and the
    generator after them. *)
Fixpoint take_gateways (n : nat) (g : gateway_generator)
    : list string * gateway_generator :=
  match n with
  | O => ([], g)
  | S k =>
      let '(url, g1) := next_gateway g in
      let '(urls, g2) := take_gateways k g1 in
      (url :: urls, g2)
  end.

(* ================================================================= *)
(** ** select_random_faucet *)

Definition private_key_base : string :=
  "deaddeaddeaddead5fb92d83ed54c0ea1eb74e72a84ef980d42953caaa6d".

(** Lower-case hexadecimal digits of a natural number, ["0"] for zero. *)
Definition hex_of_N (n : N) : string :=
  NilZero.string_of_uint (N.to_hex_uint n).

Fixpoint zeros (n : nat) : string :=
  match n with
  | O => ""
  | S k => String "0" (zeros k)
  end.

(** ["%0.4x" % i]: the precision asks for at least four digits, filled
    with zeros on the left; a negative number keeps its sign in front. *)
Definition format_04x (i : Z) : string :=
  let digits := hex_of_N (Z.abs_N i) in
  let padded := zeros (4 - String.length digits) +:+ digits in
  if (i <? 0)%Z then "-" +:+ padded else padded.

(** Reading a string of hexadecimal digits back. *)
Definition hex_value (s : string) : option Z :=
  option_map (fun u => Z.of_N (N.of_hex_uint u)) (NilZero.uint_of_string s).

(** The check run on every index of the pool: the selector has four
    digits and reads back as the index. *)
Definition selector_ok (n : nat) : bool :=
  Nat.eqb (String.length (format_04x (Z.of_nat n))) 4
  && match hex_value (format_04x (Z.of_nat n)) with
     | Some v => Z.eqb v (Z.of_nat n)
     | None => false
     end.

Section Faucets.

(** The random source: the state of the generator behind the [random]
    module and its [randrange(start, stop, step)]. *)
Context {Rng : Type}.
Variable randrange : Z -> Z -> Z -> Rng -> Z * Rng.

Definition select_random_faucet (rng : Rng) : (Z * string) * Rng :=
  let '(selected_faucet_index, rng') := randrange 0 (499 + 1) 1 rng in
  let hex_selector_bytes := format_04x selected_faucet_index in
  let faucet_private_key := private_key_base +:+ hex_selector_bytes in
  ((selected_faucet_index, faucet_private_key), rng').

End Faucets.

(* ================================================================= *)
(** ** The rule of the gas estimate as the specification words it *)

(** "equals max(10_000_000, E*1.5) when E*1.5 >= 100_000*1.5, and equals
    max(10_000_000, E+500_000) otherwise" *)
Definition spec_gas (E : Z) : Q :=
  if Qle_bool (100000 * (3 # 2)) (inject_Z E * (3 # 2))
  then Qmax 10000000 (inject_Z E * (3 # 2))
  else Qmax 10000000 (inject_Z E + 500000).

(* ================================================================= *)
(** ** Reading traces *)

Definition is_estimate_call (ev : event) : bool :=
  match ev with
  | EvEstimateGas _ _ => true
  | _ => false
  end.

(** How often the remote estimator was invoked. *)
Definition estimator_calls (tr : list event) : nat :=
  List.length (List.filter is_estimate_call tr).

Definition is_remote_call (ev : event) : bool :=
  match ev with
  | EvLog _ _ | EvSleep _ => false
  | _ => true
  end.

(** The remote calls of a trace, in order. *)
Definition remote_calls_of (tr : list event) : list event :=
  List.filter is_remote_call tr.

(** The sleeps of a trace, in seconds, as reduced fractions. *)
Definition sleeps_of (tr : list event) : list Q :=
  List.flat_map (fun ev => match ev with
                           | EvSleep q => [Qred q]
                           | _ => []
                           end) tr.

(** The events of one round of the nonce poll, for each answer read:
    the log record, the sleep of attempt [i] and the transaction count
    read.  [i] is the number of the first attempt. *)
Fixpoint poll_events (address : string) (i : nat) (answers : list (exn + Z))
    : list event :=
  match answers with
  | [] => []
  | a :: rest =>
      EvLog DEBUG "Waiting {sleep_time} seconds for faucet transaction confirmation"
      :: EvSleep (inject_Z (Z.of_nat i) * (3 # 2) + 1)
      :: EvGetTransactionCount address a
      :: poll_events address (S i) rest
  end.

(** An answer that leaves the poll running: a count not above the baseline. *)
Definition not_incremented (baseline : Z) (a : exn + Z) : Prop :=
  exists c : Z, a = inr c /\ (c <= baseline)%Z.

(** How a poll of [budget] attempts ended on its last answer, after
    [attempts] reads: the count went above the baseline, or the budget
    is used up, or the read failed. *)
Inductive poll_end (baseline : Z) (budget attempts : nat)
    : exn + Z -> outcome unit -> Prop :=
| poll_incremented (c : Z) :
    (baseline < c)%Z -> poll_end baseline budget attempts (inr c) (Ret tt)
| poll_exhausted (c : Z) :
    (c <= baseline)%Z -> attempts = budget ->
    poll_end baseline budget attempts (inr c) (Ret tt)
| poll_failed (e : exn) :
    poll_end baseline budget attempts (inl e) (Raise e).

(** The events of a confirmation wait on transaction [tx_hash]: the
    rounds of the nonce poll, at most ten, each but the last reading a
    count that is not above the baseline; then, when the last read gave
    a count at all, the wait for the receipt with a timeout of 120
    seconds and a poll interval of 20; and when the last read failed,
    no remote call any more, so no wait for the receipt. *)
Definition confirmation_wait (address : string) (baseline : Z)
    (tx_hash : string) (events : list event) : Prop :=
  exists (earlier : list (exn + Z)) (last : exn + Z) (r : outcome unit)
         (after : list event),
    events = (poll_events address 0 (earlier ++ [last]) ++ after)%list
    /\ List.length (earlier ++ [last]) <= 10
    /\ Forall (not_incremented baseline) earlier
    /\ poll_end baseline 10 (List.length (earlier ++ [last])) last r
    /\ (forall c : Z, last = inr c ->
        exists (answer : exn + receipt) (rest : list event),
          after = EvWaitForReceipt tx_hash 120 20 answer :: rest)
    /\ (forall e : exn, last = inl e -> remote_calls_of after = []).

(** The dict [send_raw_transaction] returns, whatever happened. *)
Definition no_result : sent_result :=
  {| res_transaction := None; res_current_cid_commit := None |}.

(** What [send_raw_transaction] does once exception [e] has left its
    [try] block: the handler logs it and the function goes on to its
    last two lines, unless [e] is no [Exception]. *)
Definition handled_events (e : exn) : list event :=
  if is_Exception e
  then [EvLog ERROR "Error sending transaction : {e}";
        EvLog INFO "A transaction has been confirmed"]
  else [].

Definition handled_outcome (e : exn) : outcome sent_result :=
  if is_Exception e then Ret no_result else Raise e.

(** The five ways through [send_raw_transaction]: the events it adds to
    the trace and its outcome. *)
Inductive send_path (address raw : string)
    : list event -> outcome sent_result -> Prop :=
| path_no_baseline (e : exn) :
    send_path address raw
      (EvGetTransactionCount address (inl e) :: handled_events e)
      (handled_outcome e)
| path_rejected (b : Z) (e : exn) :
    send_path address raw
      (EvGetTransactionCount address (inr b)
       :: EvSendRawTransaction raw (inl e) :: handled_events e)
      (handled_outcome e)
| path_poll_failed (b : Z) (h : string) (earlier : list (exn + Z)) (e : exn) :
    Forall (not_incremented b) earlier ->
    List.length (earlier ++ [@inl exn Z e]) <= 10 ->
    send_path address raw
      ([EvGetTransactionCount address (inr b);
        EvSendRawTransaction raw (inr h);
        EvLog INFO "A transaction has been sent";
        EvLog INFO "Waiting for transaction confirmation"]
       ++ poll_events address 0 (earlier ++ [inl e])
       ++ handled_events e)
      (handled_outcome e)
| path_receipt_failed (b : Z) (h : string) (earlier : list (exn + Z)) (c : Z)
    (e : exn) :
    Forall (not_incremented b) earlier ->
    poll_end b 10 (List.length (earlier ++ [@inr exn Z c])) (inr c) (Ret tt) ->
    send_path address raw
      ([EvGetTransactionCount address (inr b);
        EvSendRawTransaction raw (inr h);
        EvLog INFO "A transaction has been sent";
        EvLog INFO "Waiting for transaction confirmation"]
       ++ poll_events address 0 (earlier ++ [inr c])
       ++ EvWaitForReceipt h 120 20 (inl e) :: handled_events e)
      (handled_outcome e)
| path_confirmed (b : Z) (h : string) (earlier : list (exn + Z)) (c : Z)
    (rc : receipt) :
    Forall (not_incremented b) earlier ->
    poll_end b 10 (List.length (earlier ++ [@inr exn Z c])) (inr c) (Ret tt) ->
    send_path address raw
      ([EvGetTransactionCount address (inr b);
        EvSendRawTransaction raw (inr h);
        EvLog INFO "A transaction has been sent";
        EvLog INFO "Waiting for transaction confirmation"]
       ++ poll_events address 0 (earlier ++ [inr c])
       ++ [EvWaitForReceipt h 120 20 (inr rc);
           EvLog INFO "A transaction has been confirmed"])
      (Ret no_result).

(* ================================================================= *)
(** ** A scripted remote side, to run the module on *)

Module Sim.

(** The world is the number of remote calls answered so far. *)
Definition remote_calls : Type := nat.

(** A handle whose transaction count follows a script indexed by the
    calls made so far, and whose other methods give fixed answers. *)
Definition handle (counts : nat -> exn + Z) (broadcast : exn + string)
    (wait : exn + receipt) (estimate : exn + Z) : web3 remote_calls :=
  {| eth_get_transaction_count := fun _ n => (counts n, S n);
     eth_send_raw_transaction := fun _ n => (broadcast, S n);
     eth_wait_for_transaction_receipt := fun _ _ _ n => (wait, S n);
     eth_estimate_gas := fun _ n => (estimate, S n);
     account_from_key := fun key => inr ("0xfaucet" +:+ key);
     account_sign_transaction := fun t key =>
       inr {| rawTransaction := "raw:" +:+ tx_data t;
              signed_hash := "0xhash" |} |}.

Definition elapse (_ : Q) (n : remote_calls) : remote_calls := n.

Definition start : state remote_calls :=
  {| world := 0; gas_cache := ∅; trace := [] |}.

(** Two calls of the same contract function ([transfer]), with
    different arguments of the same length. *)
Definition transfer_a : Transaction :=
  {| tx_from := Some "0xworker"; tx_to := Some "0xtoken"; tx_nonce := 7;
     tx_gasPrice := 100000; tx_gas := None; tx_value := 0;
     tx_data := "0xa9059cbb00000000000000000000000000000001" |}.

Definition transfer_b : Transaction :=
  {| tx_from := Some "0xworker"; tx_to := Some "0xtoken"; tx_nonce := 8;
     tx_gasPrice := 100000; tx_gas := None; tx_value := 0;
     tx_data := "0xa9059cbb00000000000000000000000000000002" |}.

(** A remote side that answers every call; the estimator says [E]. *)
Definition healthy (E : Z) : web3 remote_calls :=
  handle (fun n => inr (Z.of_nat n)) (inr "0xhash")
         (inr {| transactionHash := "0xhash" |}) (inr E).

(** A remote side that rejects every broadcast. *)
Definition rejecting : web3 remote_calls :=
  handle (fun n => inr (Z.of_nat n))
         (inl (PyException "ValueError: insufficient funds"))
         (inr {| transactionHash := "0xhash" |}) (inr 21000%Z).

(** A remote side on which nothing is ever mined: the count stays at 5
    and the wait for the receipt runs into its timeout. *)
Definition stuck : web3 remote_calls :=
  handle (fun _ => inr 5%Z) (inr "0xhash")
         (inl (PyException "TimeExhausted")) (inr 21000%Z).

(** A remote side that mines the transaction while the poll runs: the
    baseline and the first two reads of the poll give 5, the third 6. *)
Definition mining : web3 remote_calls :=
  handle (fun n => inr (if Nat.ltb n 4 then 5%Z else 6%Z)) (inr "0xhash")
         (inr {| transactionHash := "0xhash" |}) (inr 21000%Z).

(** A remote side that cannot be reached for reads of the count. *)
Definition offline : web3 remote_calls :=
  handle (fun _ => inl (PyException "ClientConnectorError")) (inr "0xhash")
         (inr {| transactionHash := "0xhash" |}) (inr 21000%Z).

(** A random source to run [select_random_faucet] with: a linear
    congruential generator, [randrange] taking the draw into the range. *)
Definition randrange (start stop step : Z) (seed : Z) : Z * Z :=
  ((start + step * (seed mod ((stop - start + step - 1) / step)))%Z,
   ((1103515245 * seed + 12345) mod 2147483648)%Z).

Definition signed : SignedTransaction :=
  {| rawTransaction := "0xf86b"; signed_hash := "0xhash" |}.

(** A format check to run [faucet] with: forty-two characters, the
    first two of them ["0x"]. *)
Definition is_address (a : string) : bool :=
  Nat.eqb (String.length a) 42 && String.prefix "0x" a.

Definition worker : string := "0x52908400098527886E0F7030069857D2E4169EE7".

(** A remote side whose estimator is down. *)
Definition no_estimator : web3 remote_calls :=
  handle (fun n => inr (Z.of_nat n)) (inr "0xhash")
         (inr {| transactionHash := "0xhash" |})
         (inl (PyException "ContractLogicError")).

End Sim.

(* ================================================================= *)
(** ** More of the module *)

(** [init_gas_cache]: the dict the cache starts as. *)
Definition init_gas_cache : gmap (string * nat) pynum := ∅.

Section MoreProtocol.

Context {World : Type}.

(** [get_balance].  [read_web3.eth.get_balance] is a method of the handle
    that the record [web3] does not list; it comes as an argument of its
    own.  The handler logs the exception itself and answers 0. *)
Definition get_balance (eth_get_balance : string -> M World Z)
    (worker_address : string) : M World Z :=
  try_except
    (eth_get_balance worker_address)
    (fun e => logging ERROR "{e}" ;; ret 0%Z).

(** A caller that estimates the gas of several transactions in a row
    with the one cache, as the worker does for the transactions it
    builds. *)
Fixpoint estimate_each (transactions : list Transaction)
    (read_web3 : web3 World) : M World (list Transaction) :=
  match transactions with
  | [] => ret []
  | t :: rest =>
      t' <- estimate_gas t read_web3 ;;
      rest' <- estimate_each rest read_web3 ;;
      ret (t' :: rest')
  end.

End MoreProtocol.

(** *** contract and contracts *)

(** [d[key]] on a dict: the value, or a [KeyError]. *)
Definition dict_getitem {V : Type} (d : gmap string V) (key : string)
    : exn + V :=
  match d !! key with
  | Some v => inr v
  | None => inl (PyException "KeyError")
  end.

(** A dict that is also iterated: its items in the order of insertion,
    the keys all different.  [d[key]] is the first item under the key. *)
Fixpoint items_getitem {V : Type} (d : list (string * V)) (key : string)
    : exn + V :=
  match d with
  | [] => inl (PyException "KeyError")
  | (k, v) :: rest => if String.eqb k key then inr v else items_getitem rest key
  end.

Section Contracts.

Context {World Contract : Type}.

(** [read_w3.eth.contract(address, abi=abi)] builds a contract object
    locally, or raises on an address or an ABI it cannot take. *)
Variable eth_contract : string -> string -> exn + Contract.

(** [abi_cnf()]: contract name to ABI file, a dict with the key "abi".
    [contracts_cnf()]: target network to the dict of contract name and
    address.  [configuration]: the entries that are strings, "target"
    among them. *)
Variable abi_cnf : gmap string (gmap string string).
Variable contracts_cnf : gmap string (list (string * string)).
Variable configuration : gmap string string.

(** [try: body / except: handler]: a bare [except] catches every
    exception, those that are no [Exception] too. *)
Definition try_except_all {A} (body : M World A) (handler : M World A)
    : M World A :=
  fun s =>
    match body s with
    | (Raise _, s') => handler s'
    | r => r
    end.

Definition contract (name : string) : M World (option Contract) :=
  try_except_all
    (by_target <- lift_result (dict_getitem configuration "target") ;;
     addresses <- lift_result (dict_getitem contracts_cnf by_target) ;;
     address <- lift_result (items_getitem addresses name) ;;
     abi_file <- lift_result (dict_getitem abi_cnf name) ;;
     abi <- lift_result (dict_getitem abi_file "abi") ;;
     c <- lift_result (eth_contract address abi) ;;
     ret (Some c))
    (logging DEBUG "Skipped contract instanciation for %s" ;; ret None).

(** The dict comprehension, over the names in the order of the dict. *)
Fixpoint contracts_of (names : list string)
    : M World (list (string * option Contract)) :=
  match names with
  | [] => ret []
  | name :: rest =>
      c <- contract name ;;
      others <- contracts_of rest ;;
      ret ((name, c) :: others)
  end.

Definition contracts : M World (list (string * option Contract)) :=
  by_target <- lift_result (dict_getitem configuration "target") ;;
  addresses <- lift_result (dict_getitem contracts_cnf by_target) ;;
  contracts_of (List.map fst addresses).

(** What has to be there for the contract [name] to be built as [c]. *)
Definition configured (name : string) (c : Contract) : Prop :=
  exists (by_target : string) (addresses : list (string * string))
         (address : string) (abi_file : gmap string string) (abi : string),
    configuration !! "target" = Some by_target
    /\ contracts_cnf !! by_target = Some addresses
    /\ items_getitem addresses name = inr address
    /\ abi_cnf !! name = Some abi_file
    /\ abi_file !! "abi" = Some abi
    /\ eth_contract address abi = inr c.

(** The state after the debug record of a contract that was skipped. *)
Definition skipped (s : state World) : state World :=
  {| world := world s; gas_cache := gas_cache s;
     trace := trace s ++ [EvLog DEBUG "Skipped contract instanciation for %s"] |}.

(** The entries of the result that hold [None]. *)
Definition skipped_entries (result : list (string * option Contract))
    : list (string * option Contract) :=
  List.filter (fun item => match snd item with
                           | None => true
                           | Some _ => false
                           end) result.

End Contracts.

(** *** More definitions for the statements *)

(** The cache holds nothing but the floor. *)
Definition only_floor (cache : gmap (string * nat) pynum) : Prop :=
  forall (k : gas_key_t) (v : pynum), cache !! k = Some v -> v = PyInt 10000000.

(** [k] zero digits in front of a hexadecimal number. *)
Fixpoint leading_zeros (k : nat) (u : Hexadecimal.uint) : Hexadecimal.uint :=
  match k with
  | O => u
  | S k' => Hexadecimal.D0 (leading_zeros k' u)
  end.

(** *** More ways to read a trace *)

(** The exception a remote call answered with, if it did. *)
Definition event_failure (ev : event) : option exn :=
  match ev with
  | EvGetTransactionCount _ (inl e) => Some e
  | EvSendRawTransaction _ (inl e) => Some e
  | EvWaitForReceipt _ _ _ (inl e) => Some e
  | EvEstimateGas _ (inl e) => Some e
  | _ => None
  end.

(** The first failure of a remote call in a trace. *)
Fixpoint first_failure (tr : list event) : option exn :=
  match tr with
  | [] => None
  | ev :: rest =>
      match event_failure ev with
      | Some e => Some e
      | None => first_failure rest
      end
  end.

Definition is_broadcast (ev : event) : bool :=
  match ev with
  | EvSendRawTransaction _ _ => true
  | _ => false
  end.

Definition broadcasts_of (tr : list event) : list event :=
  List.filter is_broadcast tr.

(** The seconds slept in a trace, added up. *)
Fixpoint slept (tr : list event) : Q :=
  match tr with
  | [] => 0
  | EvSleep q :: rest => q + slept rest
  | _ :: rest => slept rest
  end.

(** The delays of [n] attempts from attempt [i] on, added up. *)
Fixpoint schedule (i n : nat) : Q :=
  match n with
  | O => 0
  | S k => (inject_Z (Z.of_nat i) * (3 # 2) + 1) + schedule (S i) k
  end.

(** More scripted remote sides. *)
Module Lab.

(** An estimator that fails on the first call made to the remote side
    and answers 21000 from then on. *)
Definition flaky : web3 Sim.remote_calls :=
  {| eth_get_transaction_count := fun _ n => (inr (Z.of_nat n), S n);
     eth_send_raw_transaction := fun _ n => (inr "0xhash", S n);
     eth_wait_for_transaction_receipt := fun _ _ _ n =>
       (inr {| transactionHash := "0xhash" |}, S n);
     eth_estimate_gas := fun _ n =>
       (if Nat.eqb n 0 then inl (PyException "TimeoutError") else inr 21000%Z,
        S n);
     account_from_key := fun key => inr ("0xfaucet" +:+ key);
     account_sign_transaction := fun t key =>
       inr {| rawTransaction := "raw:" +:+ tx_data t;
              signed_hash := "0xhash" |} |}.

(** A remote side on which the second read of the poll fails: the
    baseline and the first read give 5, then the node is gone. *)
Definition fading : web3 Sim.remote_calls :=
  Sim.handle
    (fun n => if Nat.ltb n 3 then inr 5%Z
              else inl (PyException "ClientConnectorError"))
    (inr "0xhash") (inr {| transactionHash := "0xhash" |}) (inr 21000%Z).

Definition has_upper_case (a : string) : bool :=
  existsb (fun c => (65 <=? nat_of_ascii c)%nat && (nat_of_ascii c <=? 90)%nat)
          (list_ascii_of_string a).

(** A handle whose signing is as strict as the library's on the
    destination: an address in lower case only is no checksum address
    and is refused, and so is a key that is not 64 characters long. *)
Definition strict : web3 Sim.remote_calls :=
  {| eth_get_transaction_count := fun _ n => (inr 5%Z, S n);
     eth_send_raw_transaction := fun _ n => (inr "0xhash", S n);
     eth_wait_for_transaction_receipt := fun _ _ _ n =>
       (inr {| transactionHash := "0xhash" |}, S n);
     eth_estimate_gas := fun _ n => (inr 21000%Z, S n);
     account_from_key := fun key =>
       if Nat.eqb (String.length key) 64
       then inr ("0xfaucet" +:+ key)
       else inl (PyException "ValueError");
     account_sign_transaction := fun t key =>
       match tx_to t with
       | Some a =>
           if has_upper_case a
           then inr {| rawTransaction := "raw:" +:+ tx_data t;
                       signed_hash := "0xhash" |}
           else inl (PyException "TypeError")
       | None => inl (PyException "TypeError")
       end |}.

(** The worker's address written in lower case: it passes the format
    check and is no checksum address. *)
Definition lower_case_worker : string :=
  "0x52908400098527886e0f7030069857d2e4169ee7".

(** A third call, of another contract function. *)
Definition approve : Transaction :=
  {| tx_from := Some "0xworker"; tx_to := Some "0xtoken"; tx_nonce := 9;
     tx_gasPrice := 100000; tx_gas := None; tx_value := 0;
     tx_data := "0x095ea7b300000000000000000000000000000003" |}.

(** A configuration with two contracts under the target "testnet"; the
    ABI of the second is missing. *)
Definition configuration : gmap string string := {[ "target" := "testnet" ]}.

Definition contracts_cnf : gmap string (list (string * string)) :=
  {[ "testnet" := [("DataSpotting", "0xd5"); ("AddressManager", "0xa3")] ]}.

Definition abi_cnf : gmap string (gmap string string) :=
  {[ "DataSpotting" := {[ "abi" := "[spot]" ]} ]}.

(** A constructor that takes any address that starts with "0x". *)
Definition eth_contract (address abi : string) : exn + (string * string) :=
  if String.prefix "0x" address
  then inr (address, abi)
  else inl (PyException "InvalidAddress").

(** A balance read that cannot reach the node, and one that can. *)
Definition balance_down (_ : string) : M Sim.remote_calls Z :=
  fun s => (Raise (PyException "ClientConnectorError"), s).

Definition balance_up (_ : string) : M Sim.remote_calls Z :=
  fun s => (Ret 750000%Z, s).

End Lab.

(* ================================================================= *)
(** * Properties *)

(** ** Arithmetic of the gas rule *)

Lemma scaled_small_below_floor (E : Z) :
  py_lt (py_mul (PyInt E) (PyFloat (3 # 2))) (PyInt 100000) = true ->
  py_max (PyInt 10000000)
         (py_add (py_mul (PyInt E) (PyFloat (3 # 2))) (PyInt 500000))
  = PyInt 10000000.
Proof.
  unfold py_lt, py_max, py_gt, py_lt. cbn [py_mul py_add num_val].
  intros Hlt. apply negb_true_iff in Hlt.
  assert (Hle : Qle_bool (inject_Z E * (3 # 2) + inject_Z 500000)
                         (inject_Z 10000000) = true).
  { apply Qle_bool_iff.
    destruct (Qlt_le_dec (inject_Z E * (3 # 2)) (inject_Z 100000)) as [H | H].
    - revert H. unfold Qlt, Qle, Qplus, Qmult, inject_Z. cbn. lia.
    - apply Qle_bool_iff in H. congruence. }
  rewrite Hle. reflexivity.
Qed.

(** Whatever the estimator answers, the rule ends at the floor. *)
Lemma gas_rule_is_floor (E : Z) :
  py_max (PyInt 10000000)
         (if py_lt (py_mul (PyInt E) (PyFloat (3 # 2))) (PyInt 100000)
          then py_add (py_mul (PyInt E) (PyFloat (3 # 2))) (PyInt 500000)
          else PyInt 100000)
  = PyInt 10000000.
Proof.
  destruct (py_lt (py_mul (PyInt E) (PyFloat (3 # 2))) (PyInt 100000)) eqn:Hlt.
  - now apply scaled_small_below_floor.
  - reflexivity.
Qed.

Section EstimateGasFacts.

Context {World : Type}.
Implicit Types (s : state World) (t : Transaction).
Variable read_web3 : web3 World.

Lemma do_estimate_gas_answer t s (E : Z) (w : World) :
  eth_estimate_gas read_web3 t (world s) = (inr E, w) ->
  do_estimate_gas t read_web3 s =
    (Ret (PyInt 10000000),
     {| world := w; gas_cache := gas_cache s;
        trace := trace s ++ [EvEstimateGas t (inr E)] |}).
Proof.
  intros Hrpc. unfold do_estimate_gas, bind, remote_estimate_gas, remote, ret.
  rewrite Hrpc. cbv beta iota zeta. now rewrite gas_rule_is_floor.
Qed.

Lemma do_estimate_gas_failure t s (e : exn) (w : World) :
  eth_estimate_gas read_web3 t (world s) = (inl e, w) ->
  do_estimate_gas t read_web3 s =
    (Raise e,
     {| world := w; gas_cache := gas_cache s;
        trace := trace s ++ [EvEstimateGas t (inl e)] |}).
Proof.
  intros Hrpc. unfold do_estimate_gas, bind, remote_estimate_gas, remote.
  now rewrite Hrpc.
Qed.

(** A hit: the cached value is assigned, the state is untouched. *)
Lemma estimate_gas_hit t s (g : pynum) :
  gas_cache s !! gas_key t = Some g ->
  estimate_gas t read_web3 s = (Ret (set_gas t g), s).
Proof.
  intros Hhit. unfold estimate_gas, bind, cache_contains, cache_getitem, ret.
  cbv beta zeta. rewrite bool_decide_eq_true_2 by (rewrite Hhit; eauto).
  now rewrite Hhit.
Qed.

(** A miss answered by the estimator. *)
Lemma estimate_gas_miss t s (E : Z) (w : World) :
  gas_cache s !! gas_key t = None ->
  eth_estimate_gas read_web3 t (world s) = (inr E, w) ->
  estimate_gas t read_web3 s =
    (Ret (set_gas t (PyInt 10000000)),
     {| world := w;
        gas_cache := <[gas_key t := PyInt 10000000]> (gas_cache s);
        trace := trace s ++ [EvEstimateGas t (inr E)] |}).
Proof.
  intros Hmiss Hrpc. unfold estimate_gas. cbv zeta.
  unfold bind at 1, cache_contains.
  rewrite bool_decide_eq_false_2 by (rewrite Hmiss; intros [? ?]; discriminate).
  unfold bind at 1. rewrite (do_estimate_gas_answer _ _ _ _ Hrpc).
  unfold bind, cache_setitem, cache_getitem, ret. cbn.
  now rewrite lookup_insert_eq.
Qed.

(** A miss on which the estimator fails. *)
Lemma estimate_gas_miss_failure t s (e : exn) (w : World) :
  gas_cache s !! gas_key t = None ->
  eth_estimate_gas read_web3 t (world s) = (inl e, w) ->
  estimate_gas t read_web3 s =
    (Raise e,
     {| world := w; gas_cache := gas_cache s;
        trace := trace s ++ [EvEstimateGas t (inl e)] |}).
Proof.
  intros Hmiss Hrpc. unfold estimate_gas. cbv zeta.
  unfold bind at 1, cache_contains.
  rewrite bool_decide_eq_false_2 by (rewrite Hmiss; intros [? ?]; discriminate).
  unfold bind at 1. now rewrite (do_estimate_gas_failure _ _ _ _ Hrpc).
Qed.

End EstimateGasFacts.

(** ** estimate_gas *)

(** C10.  On a miss, whatever raw value [E] the remote estimator returns
    (non-negative or not), the value computed, stored in the cache under
    the key of the transaction and assigned to the transaction's gas is
    exactly the integer 10,000,000: the estimate never changes the
    outcome. *)
Theorem estimate_gas_always_floor {World : Type} (read_web3 : web3 World)
    (t : Transaction) (s : state World) (E : Z) (w : World) :
  gas_cache s !! gas_key t = None ->
  eth_estimate_gas read_web3 t (world s) = (inr E, w) ->
  exists (t' : Transaction) (s' : state World),
    estimate_gas t read_web3 s = (Ret t', s')
    /\ fst (do_estimate_gas t read_web3 s) = Ret (PyInt 10000000)
    /\ tx_gas t' = Some (PyInt 10000000)
    /\ gas_cache s' !! gas_key t = Some (PyInt 10000000).
Proof.
  intros Hmiss Hrpc. eexists _, _. split; [| split; [| split]].
  - exact (estimate_gas_miss read_web3 t s E w Hmiss Hrpc).
  - now rewrite (do_estimate_gas_answer read_web3 t s E w Hrpc).
  - reflexivity.
  - cbn. apply lookup_insert_eq.
Qed.

Lemma estimate_gas_always_floor_witness :
  gas_cache Sim.start !! gas_key Sim.transfer_a = None
  /\ eth_estimate_gas (Sim.healthy 21000) Sim.transfer_a (world Sim.start)
     = (inr 21000%Z, 1)
  /\ exists (t' : Transaction) (s' : state Sim.remote_calls),
       estimate_gas Sim.transfer_a (Sim.healthy 21000) Sim.start = (Ret t', s')
       /\ fst (do_estimate_gas Sim.transfer_a (Sim.healthy 21000) Sim.start)
          = Ret (PyInt 10000000)
       /\ tx_gas t' = Some (PyInt 10000000)
       /\ gas_cache s' !! gas_key Sim.transfer_a = Some (PyInt 10000000).
Proof.
  split; [reflexivity | split; [reflexivity |]].
  apply (estimate_gas_always_floor (Sim.healthy 21000) Sim.transfer_a
           Sim.start 21000 1); reflexivity.
Defined.

(** The rule as the specification words it, against the floor. *)
Lemma spec_gas_below_floor (E : Z) :
  (inject_Z E * (3 # 2) <= 10000000)%Q -> (spec_gas E == 10000000)%Q.
Proof.
  intros Hle. unfold spec_gas.
  destruct (Qle_bool (100000 * (3 # 2)) (inject_Z E * (3 # 2))) eqn:Hb.
  - now apply Q.max_l.
  - apply Q.max_l.
    assert (Hlt : ~ (100000 * (3 # 2) <= inject_Z E * (3 # 2))%Q).
    { intros H. apply Qle_bool_iff in H. congruence. }
    revert Hlt. unfold Qle, Qplus, Qmult, inject_Z. cbn. lia.
Qed.

Lemma spec_gas_above_floor (E : Z) :
  (10000000 < inject_Z E * (3 # 2))%Q ->
  (spec_gas E == inject_Z E * (3 # 2))%Q.
Proof.
  intros Hlt. unfold spec_gas.
  assert (Hb : Qle_bool (100000 * (3 # 2)) (inject_Z E * (3 # 2)) = true).
  { apply Qle_bool_iff. revert Hlt.
    unfold Qlt, Qle, Qplus, Qmult, inject_Z. cbn. lia. }
  rewrite Hb. apply Q.max_r. now apply Qlt_le_weak.
Qed.

(** C1, as amended.  On a miss answered with the raw value [E], the value
    stored in the cache and assigned as the transaction's gas [g] is
    max(10,000,000, E*1.5 + 500,000) when E*1.5 < 100,000 and
    max(10,000,000, 100,000) otherwise: the default stays where the scaled
    estimate is large.  So [g] is the value of the specification's rule
    as long as E*1.5 <= 10,000,000, and stays 10,000,000, not E*1.5,
    above that. *)
Theorem estimate_gas_rule {World : Type} (read_web3 : web3 World)
    (t : Transaction) (s : state World) (E : Z) (w : World) :
  gas_cache s !! gas_key t = None ->
  eth_estimate_gas read_web3 t (world s) = (inr E, w) ->
  exists (g : pynum) (s' : state World),
    estimate_gas t read_web3 s = (Ret (set_gas t g), s')
    /\ gas_cache s' = <[gas_key t := g]> (gas_cache s)
    /\ g = py_max (PyInt 10000000)
             (if py_lt (PyFloat (inject_Z E * (3 # 2))) (PyInt 100000)
              then PyFloat (inject_Z E * (3 # 2) + 500000)
              else PyInt 100000)
    /\ ((inject_Z E * (3 # 2) <= 10000000)%Q ->
        (num_val g == spec_gas E)%Q)
    /\ ((10000000 < inject_Z E * (3 # 2))%Q ->
        (num_val g == 10000000)%Q /\ ~ (num_val g == spec_gas E)%Q).
Proof.
  intros Hmiss Hrpc. exists (PyInt 10000000). eexists.
  split; [exact (estimate_gas_miss read_web3 t s E w Hmiss Hrpc) |].
  split; [reflexivity |].
  split; [symmetry; exact (gas_rule_is_floor E) |].
  split.
  - intros Hle. cbn [num_val]. symmetry. now apply spec_gas_below_floor.
  - intros Hlt. cbn [num_val]. split; [reflexivity |].
    rewrite (spec_gas_above_floor E Hlt). intros Heq.
    rewrite <- Heq in Hlt. revert Hlt. unfold Qlt, inject_Z. cbn. lia.
Qed.

Lemma estimate_gas_rule_witness :
  gas_cache Sim.start !! gas_key Sim.transfer_a = None
  /\ eth_estimate_gas (Sim.healthy 66667) Sim.transfer_a (world Sim.start)
     = (inr 66667%Z, 1)
  /\ exists (g : pynum) (s' : state Sim.remote_calls),
       estimate_gas Sim.transfer_a (Sim.healthy 66667) Sim.start
         = (Ret (set_gas Sim.transfer_a g), s')
       /\ gas_cache s' = <[gas_key Sim.transfer_a := g]> (gas_cache Sim.start)
       /\ g = py_max (PyInt 10000000)
                (if py_lt (PyFloat (inject_Z 66667 * (3 # 2))) (PyInt 100000)
                 then PyFloat (inject_Z 66667 * (3 # 2) + 500000)
                 else PyInt 100000)
       /\ ((inject_Z 66667 * (3 # 2) <= 10000000)%Q ->
           (num_val g == spec_gas 66667)%Q)
       /\ ((10000000 < inject_Z 66667 * (3 # 2))%Q ->
           (num_val g == 10000000)%Q /\ ~ (num_val g == spec_gas 66667)%Q).
Proof.
  split; [reflexivity | split; [reflexivity |]].
  apply (estimate_gas_rule (Sim.healthy 66667) Sim.transfer_a
           Sim.start 66667 1); reflexivity.
Defined.

(** C1 as stated fails: the estimator answers E = 10,000,000 on a miss,
    E*1.5 >= 100,000*1.5, and the rule of the specification asks for
    max(10,000,000, 15,000,000) = 15,000,000; the value stored and
    assigned is 10,000,000. *)
Lemma estimate_gas_rule_counterexample :
  gas_cache Sim.start !! gas_key Sim.transfer_a = None
  /\ eth_estimate_gas (Sim.healthy 10000000) Sim.transfer_a (world Sim.start)
     = (inr 10000000%Z, 1)
  /\ (100000 * (3 # 2) <= inject_Z 10000000 * (3 # 2))%Q
  /\ exists (g : pynum) (t' : Transaction) (s' : state Sim.remote_calls),
       estimate_gas Sim.transfer_a (Sim.healthy 10000000) Sim.start = (Ret t', s')
       /\ tx_gas t' = Some g
       /\ gas_cache s' !! gas_key Sim.transfer_a = Some g
       /\ (num_val g == 10000000)%Q
       /\ (spec_gas 10000000 == 15000000)%Q
       /\ ~ (num_val g == Qmax 10000000 (inject_Z 10000000 * (3 # 2)))%Q.
Proof.
  split; [reflexivity | split; [reflexivity | split; [discriminate |]]].
  exists (PyInt 10000000). eexists _, _.
  split.
  { apply (estimate_gas_miss (Sim.healthy 10000000) Sim.transfer_a
             Sim.start 10000000 1); reflexivity. }
  split; [reflexivity |].
  split; [cbn; apply lookup_insert_eq |].
  split; [reflexivity |].
  split; [reflexivity |].
  cbn [num_val]. intros Heq. discriminate Heq.
Qed.

(** C2.  Two calls in a row on transactions with the same selector text
    and the same data length, starting from a miss that the estimator
    answers: both return, both transactions carry the same gas value,
    and over the two calls the trace gains exactly one invocation of the
    estimator and no other event: the second call is a hit. *)
Theorem estimate_gas_twice {World : Type} (read_web3 : web3 World)
    (t1 t2 : Transaction) (s : state World) (E : Z) (w : World) :
  String.substring 2 8 (tx_data t1) = String.substring 2 8 (tx_data t2) ->
  String.length (tx_data t1) = String.length (tx_data t2) ->
  gas_cache s !! gas_key t1 = None ->
  eth_estimate_gas read_web3 t1 (world s) = (inr E, w) ->
  exists (t1' t2' : Transaction) (g : pynum) (s1 s2 : state World),
    estimate_gas t1 read_web3 s = (Ret t1', s1)
    /\ estimate_gas t2 read_web3 s1 = (Ret t2', s2)
    /\ (t1' <- estimate_gas t1 read_web3 ;;
        t2' <- estimate_gas t2 read_web3 ;;
        ret (t1', t2'))%proto s = (Ret (t1', t2'), s2)
    /\ tx_gas t1' = Some g /\ tx_gas t2' = Some g
    /\ s2 = s1
    /\ trace s2 = (trace s ++ [EvEstimateGas t1 (inr E)])%list
    /\ estimator_calls (trace s2) = estimator_calls (trace s) + 1.
Proof.
  intros Hsel Hlen Hmiss Hrpc.
  assert (Hkey : gas_key t2 = gas_key t1).
  { unfold gas_key. now rewrite Hsel, Hlen. }
  pose proof (estimate_gas_miss read_web3 t1 s E w Hmiss Hrpc) as Hfirst.
  set (s1 := {| world := w;
                gas_cache := <[gas_key t1 := PyInt 10000000]> (gas_cache s);
                trace := trace s ++ [EvEstimateGas t1 (inr E)] |}) in *.
  assert (Hsecond : estimate_gas t2 read_web3 s1
                    = (Ret (set_gas t2 (PyInt 10000000)), s1)).
  { apply estimate_gas_hit. rewrite Hkey. cbn. apply lookup_insert_eq. }
  exists (set_gas t1 (PyInt 10000000)), (set_gas t2 (PyInt 10000000)),
    (PyInt 10000000), s1, s1.
  split; [exact Hfirst |]. split; [exact Hsecond |].
  split. { unfold bind. rewrite Hfirst, Hsecond. reflexivity. }
  split; [reflexivity |]. split; [reflexivity |]. split; [reflexivity |].
  split; [reflexivity |].
  cbn. unfold estimator_calls. rewrite List.filter_app, List.length_app.
  reflexivity.
Qed.

Lemma estimate_gas_twice_witness :
  String.substring 2 8 (tx_data Sim.transfer_a)
    = String.substring 2 8 (tx_data Sim.transfer_b)
  /\ String.length (tx_data Sim.transfer_a)
     = String.length (tx_data Sim.transfer_b)
  /\ gas_cache Sim.start !! gas_key Sim.transfer_a = None
  /\ eth_estimate_gas (Sim.healthy 21000) Sim.transfer_a (world Sim.start)
     = (inr 21000%Z, 1)
  /\ exists (t1' t2' : Transaction) (g : pynum)
            (s1 s2 : state Sim.remote_calls),
       estimate_gas Sim.transfer_a (Sim.healthy 21000) Sim.start = (Ret t1', s1)
       /\ estimate_gas Sim.transfer_b (Sim.healthy 21000) s1 = (Ret t2', s2)
       /\ (t1' <- estimate_gas Sim.transfer_a (Sim.healthy 21000) ;;
           t2' <- estimate_gas Sim.transfer_b (Sim.healthy 21000) ;;
           ret (t1', t2'))%proto Sim.start = (Ret (t1', t2'), s2)
       /\ tx_gas t1' = Some g /\ tx_gas t2' = Some g
       /\ s2 = s1
       /\ trace s2 = (trace Sim.start
                      ++ [EvEstimateGas Sim.transfer_a (inr 21000%Z)])%list
       /\ estimator_calls (trace s2) = estimator_calls (trace Sim.start) + 1.
Proof.
  split; [reflexivity | split; [reflexivity |
    split; [reflexivity | split; [reflexivity |]]]].
  apply (estimate_gas_twice (Sim.healthy 21000) Sim.transfer_a Sim.transfer_b
           Sim.start 21000 1); reflexivity.
Defined.

(** C6.  On a miss on which the remote estimator fails, the call raises
    that very exception to its caller, and the cache is what it was: no
    entry is written, under this key or another. *)
Theorem estimate_gas_failure_propagates {World : Type} (read_web3 : web3 World)
    (t : Transaction) (s : state World) (e : exn) (w : World) :
  gas_cache s !! gas_key t = None ->
  eth_estimate_gas read_web3 t (world s) = (inl e, w) ->
  exists s' : state World,
    estimate_gas t read_web3 s = (Raise e, s')
    /\ gas_cache s' = gas_cache s
    /\ gas_cache s' !! gas_key t = None.
Proof.
  intros Hmiss Hrpc. eexists. split; [| split].
  - exact (estimate_gas_miss_failure read_web3 t s e w Hmiss Hrpc).
  - reflexivity.
  - exact Hmiss.
Qed.

Lemma estimate_gas_failure_propagates_witness :
  gas_cache Sim.start !! gas_key Sim.transfer_a = None
  /\ eth_estimate_gas Sim.no_estimator Sim.transfer_a (world Sim.start)
     = (inl (PyException "ContractLogicError"), 1)
  /\ exists s' : state Sim.remote_calls,
       estimate_gas Sim.transfer_a Sim.no_estimator Sim.start
         = (Raise (PyException "ContractLogicError"), s')
       /\ gas_cache s' = gas_cache Sim.start
       /\ gas_cache s' !! gas_key Sim.transfer_a = None.
Proof.
  split; [reflexivity | split; [reflexivity |]].
  apply (estimate_gas_failure_propagates Sim.no_estimator Sim.transfer_a
           Sim.start (PyException "ContractLogicError") 1); reflexivity.
Defined.

(** ** The nonce poll *)

(** The delays of the ten attempts, in seconds. *)
Lemma sleep_time_schedule :
  List.map (fun i => Qred (num_val (sleep_time i))) (seq 0 10)
  = [1; 5 # 2; 4; 11 # 2; 7; 17 # 2; 10; 23 # 2; 13; 29 # 2]%Q.
Proof. reflexivity. Qed.

(** Split a conjunction into its parts, and nothing else. *)
Ltac split_all := repeat match goal with |- _ /\ _ => split end.

Section PollFacts.

Context {World : Type}.
Variable elapse : Q -> World -> World.
Variable read_web3 : web3 World.
Variable address : string.
Variable baseline : Z.

(** The poll over the attempts [i, i+1, ..., i+n-1]. *)
Lemma nonce_poll_rounds (n : nat) :
  forall (i : nat) (s : state World),
    0 < n ->
    exists (earlier : list (exn + Z)) (last : exn + Z) (r : outcome unit)
           (s' : state World),
      nonce_poll elapse read_web3 address baseline (seq i n) s = (r, s')
      /\ trace s' = (trace s ++ poll_events address i (earlier ++ [last]))%list
      /\ gas_cache s' = gas_cache s
      /\ List.length (earlier ++ [last]) <= n
      /\ Forall (not_incremented baseline) earlier
      /\ poll_end baseline n (List.length (earlier ++ [last])) last r.
Proof.
  induction n as [| n IH]; intros i s Hn; [lia |].
  cbn [seq nonce_poll].
  unfold bind at 1, logging. unfold bind at 1, asyncio_sleep.
  unfold bind at 1, get_transaction_count, remote. cbn [world gas_cache trace].
  destruct (eth_get_transaction_count read_web3 address
              (elapse (num_val (sleep_time i)) (world s))) as [[e | c] w].
  - exists [], (inl e). eexists _, _. split; [reflexivity |].
    cbn [trace gas_cache app poll_events List.length].
    rewrite <- !app_assoc.
    split_all; [reflexivity | reflexivity | lia | constructor | constructor].
  - destruct (c >? baseline)%Z eqn:Hc.
    + exists [], (inr c). eexists _, _. split; [reflexivity |].
      cbn [trace gas_cache app poll_events List.length].
      rewrite <- !app_assoc.
      split_all; [reflexivity | reflexivity | lia | constructor |].
      apply poll_incremented. lia.
    + destruct n as [| n'].
      * exists [], (inr c). eexists _, _. split; [reflexivity |].
        cbn [trace gas_cache app poll_events List.length].
        rewrite <- !app_assoc.
        split_all; [reflexivity | reflexivity | lia | constructor |].
        apply poll_exhausted; [lia | reflexivity].
      * match goal with
        | |- context [nonce_poll _ _ _ _ _ ?s1] =>
            destruct (IH (S i) s1 ltac:(lia))
              as (earlier & last & r & s' & Hrun & Htr & Hc' & Hlen & Hall & Hend)
        end.
        exists (inr c :: earlier), last, r, s'.
        split; [exact Hrun |].
        split.
        { rewrite Htr. cbn [trace app poll_events]. rewrite <- !app_assoc.
          reflexivity. }
        split; [rewrite Hc'; reflexivity |].
        split; [cbn [app List.length] in *; lia |].
        split.
        { constructor; [| exact Hall]. exists c. split; [reflexivity | lia]. }
        cbn [app List.length].
        inversion Hend; subst.
        -- now apply poll_incremented.
        -- apply poll_exhausted; [assumption | lia].
        -- apply poll_failed.
Qed.

End PollFacts.

(** ** send_raw_transaction *)

Section WaitFacts.
Context {World : Type}.
Variable elapse : Q -> World -> World.
Variables write_web3 read_web3 : web3 World.

Lemma poll_end_count_has_ret (baseline : Z) (budget attempts : nat) (c : Z)
    (r : outcome unit) :
  poll_end baseline budget attempts (inr c) r -> r = Ret tt.
Proof. inversion 1; reflexivity. Qed.

Lemma poll_end_failure_raises (baseline : Z) (budget attempts : nat) (e : exn)
    (r : outcome unit) :
  poll_end baseline budget attempts (inl e) r -> r = Raise e.
Proof. inversion 1; reflexivity. Qed.

Lemma send_raw_transaction_wait (transaction : SignedTransaction)
    (worker_address : string) (s : state World) (b : Z) (h : string)
    (w1 w2 : World) :
  eth_get_transaction_count read_web3 worker_address (world s) = (inr b, w1) ->
  eth_send_raw_transaction write_web3 (rawTransaction transaction) w1
    = (inr h, w2) ->
  exists events : list event,
    trace (snd (send_raw_transaction elapse transaction write_web3 read_web3
                  worker_address s))
    = (trace s
       ++ [EvGetTransactionCount worker_address (inr b);
           EvSendRawTransaction (rawTransaction transaction) (inr h);
           EvLog INFO "A transaction has been sent";
           EvLog INFO "Waiting for transaction confirmation"]
       ++ events)%list
    /\ confirmation_wait worker_address b h events.
Proof.
  intros Hget Hsend.
  unfold send_raw_transaction.
  unfold bind at 1. unfold try_except.
  unfold bind at 1, get_transaction_count, remote. rewrite Hget.
  cbv beta iota zeta.
  unfold bind at 1, send_raw, remote. cbn [world gas_cache trace].
  rewrite Hsend. cbv beta iota zeta.
  unfold bind at 1, logging. cbn [world gas_cache trace].
  unfold bind at 1. cbn [world gas_cache trace].
  unfold bind at 1.
  match goal with
  | |- context [nonce_poll _ _ _ _ _ ?s1] =>
      destruct (nonce_poll_rounds elapse read_web3 worker_address b 10 0 s1
                  ltac:(lia))
        as (earlier & last & r & s' & Hrun & Htr & _ & Hlen & Hall & Hend)
  end.
  cbn [trace] in Htr.
  destruct last as [e | c].
  - pose proof (poll_end_failure_raises _ _ _ _ _ Hend) as Hr. subst r. rewrite Hrun.
    exists (poll_events worker_address 0 (earlier ++ [inl e])
            ++ (if is_Exception e
                then [EvLog ERROR "Error sending transaction : {e}";
                      EvLog INFO "A transaction has been confirmed"]
                else []))%list.
    split.
    + destruct (is_Exception e); unfold bind, ret; cbn [snd trace];
        rewrite Htr, <- ?app_assoc; cbn [app]; rewrite ?app_nil_r; reflexivity.
    + exists earlier, (inl e), (Raise e). eexists.
      split_all; [reflexivity | exact Hlen | exact Hall | exact Hend | |].
      * intros c Hc. discriminate Hc.
      * intros e' _. now destruct (is_Exception e).
  - pose proof (poll_end_count_has_ret _ _ _ _ _ Hend) as Hr. subst r. rewrite Hrun.
    unfold bind at 1, wait_for_transaction_receipt, remote.
    destruct (eth_wait_for_transaction_receipt read_web3 h 120 20 (world s'))
      as [[e | rc] w3].
    + exists (poll_events worker_address 0 (earlier ++ [inr c])
              ++ EvWaitForReceipt h 120 20 (inl e)
                 :: (if is_Exception e
                     then [EvLog ERROR "Error sending transaction : {e}";
                           EvLog INFO "A transaction has been confirmed"]
                     else []))%list.
      split.
      * destruct (is_Exception e); unfold bind, ret; cbn [snd trace];
          rewrite Htr, <- ?app_assoc; cbn [app]; reflexivity.
      * exists earlier, (inr c), (Ret tt). eexists.
        split_all; [reflexivity | exact Hlen | exact Hall | exact Hend | |].
        -- intros c' _. eexists _, _. reflexivity.
        -- intros e' He'. discriminate He'.
    + exists (poll_events worker_address 0 (earlier ++ [inr c])
              ++ [EvWaitForReceipt h 120 20 (inr rc);
                  EvLog INFO "A transaction has been confirmed"])%list.
      split.
      * unfold bind, ret; cbn [snd trace];
          rewrite Htr, <- ?app_assoc; cbn [app]; reflexivity.
      * exists earlier, (inr c), (Ret tt). eexists.
        split_all; [reflexivity | exact Hlen | exact Hall | exact Hend | |].
        -- intros c' _. eexists _, _. reflexivity.
        -- intros e' He'. discriminate He'.
Qed.

(** Every run of [send_raw_transaction] follows one of the five paths. *)
Lemma send_raw_transaction_path (transaction : SignedTransaction)
    (worker_address : string) (s : state World) :
  exists (events : list event) (r : outcome sent_result) (s' : state World),
    send_raw_transaction elapse transaction write_web3 read_web3
      worker_address s = (r, s')
    /\ trace s' = (trace s ++ events)%list
    /\ gas_cache s' = gas_cache s
    /\ send_path worker_address (rawTransaction transaction) events r.
Proof.
  unfold send_raw_transaction.
  unfold bind at 1. unfold try_except.
  unfold bind at 1, get_transaction_count, remote.
  destruct (eth_get_transaction_count read_web3 worker_address (world s))
    as [[e | b] w1].
  { pose proof (path_no_baseline worker_address (rawTransaction transaction) e)
      as P.
    unfold handled_events, handled_outcome in P.
    destruct (is_Exception e); unfold bind, logging, ret;
      eexists _, _, _; (split; [reflexivity |]); cbn [trace gas_cache];
      rewrite <- ?app_assoc; (split; [reflexivity |]);
      (split; [reflexivity | exact P]). }
  cbv beta iota zeta.
  unfold bind at 1, send_raw, remote. cbn [world gas_cache trace].
  destruct (eth_send_raw_transaction write_web3 (rawTransaction transaction) w1)
    as [[e | h] w2].
  { pose proof (path_rejected worker_address (rawTransaction transaction) b e)
      as P.
    unfold handled_events, handled_outcome in P.
    destruct (is_Exception e); unfold bind, logging, ret;
      eexists _, _, _; (split; [reflexivity |]); cbn [trace gas_cache];
      rewrite <- ?app_assoc; (split; [reflexivity |]);
      (split; [reflexivity | exact P]). }
  cbv beta iota zeta.
  unfold bind at 1, logging. cbn [world gas_cache trace].
  unfold bind at 1. cbn [world gas_cache trace].
  unfold bind at 1.
  match goal with
  | |- context [nonce_poll _ _ _ _ _ ?s1] =>
      destruct (nonce_poll_rounds elapse read_web3 worker_address b 10 0 s1
                  ltac:(lia))
        as (earlier & last & r & s' & Hrun & Htr & Hgc & Hlen & Hall & Hend)
  end.
  cbn [trace gas_cache] in Htr, Hgc.
  destruct last as [e | c].
  - pose proof (poll_end_failure_raises _ _ _ _ _ Hend) as Hr. subst r.
    rewrite Hrun.
    pose proof (path_poll_failed worker_address (rawTransaction transaction)
                  b h earlier e Hall Hlen) as P.
    unfold handled_events, handled_outcome in P.
    destruct (is_Exception e); rewrite ?app_nil_r in P; unfold bind, ret;
      eexists _, _, _; (split; [reflexivity |]); cbn [trace gas_cache];
      rewrite Htr, Hgc, <- ?app_assoc; (split; [reflexivity |]);
      (split; [reflexivity | exact P]).
  - pose proof (poll_end_count_has_ret _ _ _ _ _ Hend) as Hr. subst r.
    rewrite Hrun.
    unfold bind at 1, wait_for_transaction_receipt, remote.
    destruct (eth_wait_for_transaction_receipt read_web3 h 120 20 (world s'))
      as [[e | rc] w3].
    + pose proof (path_receipt_failed worker_address
                    (rawTransaction transaction) b h earlier c e Hall Hend) as P.
      unfold handled_events, handled_outcome in P.
      destruct (is_Exception e); unfold bind, ret;
        eexists _, _, _; (split; [reflexivity |]); cbn [trace gas_cache];
        rewrite Htr, Hgc, <- ?app_assoc; (split; [reflexivity |]);
        (split; [reflexivity | exact P]).
    + pose proof (path_confirmed worker_address
                    (rawTransaction transaction) b h earlier c rc Hall Hend) as P.
      unfold bind, ret;
        eexists _, _, _; (split; [reflexivity |]); cbn [trace gas_cache];
        rewrite Htr, Hgc, <- ?app_assoc; (split; [reflexivity |]);
        (split; [reflexivity | exact P]).
Qed.

End WaitFacts.

(** What the poll and the handler add to a trace. *)
Lemma poll_events_kinds (address : string) (ev : event)
    (answers : list (exn + Z)) :
  forall i : nat,
    List.In ev (poll_events address i answers) ->
    (exists msg, ev = EvLog DEBUG msg)
    \/ (exists q, ev = EvSleep q)
    \/ (exists a, ev = EvGetTransactionCount address a).
Proof.
  induction answers as [| a rest IH]; intros i Hin; [destruct Hin |].
  cbn [poll_events List.In] in Hin.
  destruct Hin as [<- | [<- | [<- | Hin]]]; eauto.
Qed.

Lemma handled_events_kinds (e : exn) (ev : event) :
  List.In ev (handled_events e) -> exists level msg, ev = EvLog level msg.
Proof.
  unfold handled_events. destruct (is_Exception e); cbn [List.In].
  - intros [<- | [<- | []]]; eauto.
  - intros [].
Qed.

(** No broadcast and no wait for a receipt hides in them. *)
Ltac no_such_event H :=
  first
    [ apply poll_events_kinds in H;
      destruct H as [[? H] | [[? H] | [? H]]]; discriminate H
    | apply handled_events_kinds in H;
      destruct H as (? & ? & H); discriminate H ].

Lemma handled_by_Exception (e : exn) :
  is_Exception e = true ->
  handled_outcome e = Ret no_result
  /\ handled_events e = [EvLog ERROR "Error sending transaction : {e}";
                         EvLog INFO "A transaction has been confirmed"].
Proof. unfold handled_outcome, handled_events. now intros ->. Qed.

Lemma handled_outcome_cases (e : exn) :
  handled_outcome e = Ret no_result
  \/ (handled_outcome e = Raise e /\ is_Exception e = false).
Proof.
  unfold handled_outcome. destruct (is_Exception e); [left | right]; auto.
Qed.

(** A failed broadcast or a failed wait for the receipt on a path. *)
Lemma send_path_failure_handled (address raw : string) (events : list event)
    (r : outcome sent_result) (e : exn) :
  send_path address raw events r ->
  is_Exception e = true ->
  List.In (EvSendRawTransaction raw (inl e)) events
  \/ (exists h, List.In (EvWaitForReceipt h 120 20 (inl e)) events) ->
  r = Ret no_result
  /\ exists before : list event,
       events = (before ++ [EvLog ERROR "Error sending transaction : {e}";
                           EvLog INFO "A transaction has been confirmed"])%list.
Proof.
  intros Hpath He Hin.
  destruct Hpath as [e0 | b e0 | b h earlier e0 Hall Hlen
                    | b h earlier c e0 Hall Hend | b h earlier c rc Hall Hend].
  - exfalso. destruct Hin as [Hin | [h' Hin]];
      (destruct Hin as [Hin | Hin]; [discriminate Hin | no_such_event Hin]).
  - destruct Hin as [Hin | [h' Hin]].
    + destruct Hin as [Hin | [Hin | Hin]];
        [discriminate Hin | | exfalso; no_such_event Hin].
      injection Hin as ->.
      destruct (handled_by_Exception e He) as [-> ->].
      split; [reflexivity |].
      now exists [EvGetTransactionCount address (inr b);
                  EvSendRawTransaction raw (inl e)].
    + exfalso. destruct Hin as [Hin | [Hin | Hin]];
        [discriminate Hin | discriminate Hin | no_such_event Hin].
  - exfalso. destruct Hin as [Hin | [h' Hin]];
      rewrite !List.in_app_iff in Hin; cbn [List.In] in Hin;
      destruct Hin as [[Hin | [Hin | [Hin | [Hin | []]]]] | [Hin | Hin]];
      try discriminate Hin; no_such_event Hin.
  - destruct Hin as [Hin | [h' Hin]];
      rewrite !List.in_app_iff in Hin; cbn [List.In] in Hin;
      destruct Hin as [[Hin | [Hin | [Hin | [Hin | []]]]] | [Hin | [Hin | Hin]]];
      try discriminate Hin; try (exfalso; no_such_event Hin).
    injection Hin as -> ->.
    destruct (handled_by_Exception e He) as [-> ->].
    split; [reflexivity |].
    eexists. rewrite !List.app_assoc. rewrite <- List.app_assoc.
    change (EvWaitForReceipt h' 120 20 (inl e)
            :: [EvLog ERROR "Error sending transaction : {e}";
                EvLog INFO "A transaction has been confirmed"])
      with ([EvWaitForReceipt h' 120 20 (inl e)]
            ++ [EvLog ERROR "Error sending transaction : {e}";
                EvLog INFO "A transaction has been confirmed"])%list.
    rewrite !List.app_assoc. reflexivity.
  - exfalso. destruct Hin as [Hin | [h' Hin]];
      rewrite !List.in_app_iff in Hin; cbn [List.In] in Hin;
      destruct Hin as [[Hin | [Hin | [Hin | [Hin | []]]]]
                      | [Hin | [Hin | [Hin | []]]]];
      try discriminate Hin; no_such_event Hin.
Qed.

Lemma send_path_outcome (address raw : string) (events : list event)
    (r : outcome sent_result) :
  send_path address raw events r ->
  r = Ret no_result \/ (exists e, r = Raise e /\ is_Exception e = false).
Proof.
  intros Hpath.
  destruct Hpath as [e | b e | b h earlier e _ _ | b h earlier c e _ _ |];
    try (destruct (handled_outcome_cases e) as [-> | [-> He]]; eauto).
  now left.
Qed.

(** C3, as amended.  [send_raw_transaction] never raises an [Exception]
    to its caller: every run returns the same dict, with both entries
    [None], or lets through an exception that is no [Exception].  When
    the remote rejects the broadcast or the wait for the receipt fails
    (its timeout included) with an [Exception], the handler logs the
    error, the function logs "A transaction has been confirmed" and
    returns that dict as it does after a confirmation. *)
Theorem send_raw_transaction_swallows_failures {World : Type}
    (elapse : Q -> World -> World) (write_web3 read_web3 : web3 World)
    (transaction : SignedTransaction) (worker_address : string)
    (s : state World) :
  exists (events : list event) (r : outcome sent_result) (s' : state World),
    send_raw_transaction elapse transaction write_web3 read_web3
      worker_address s = (r, s')
    /\ trace s' = (trace s ++ events)%list
    /\ (r = Ret no_result \/ (exists e, r = Raise e /\ is_Exception e = false))
    /\ (forall e : exn,
          is_Exception e = true ->
          List.In (EvSendRawTransaction (rawTransaction transaction) (inl e))
                  events
          \/ (exists h, List.In (EvWaitForReceipt h 120 20 (inl e)) events) ->
          r = Ret no_result
          /\ exists before : list event,
               events =
                 (before ++ [EvLog ERROR "Error sending transaction : {e}";
                             EvLog INFO "A transaction has been confirmed"])%list).
Proof.
  destruct (send_raw_transaction_path elapse write_web3 read_web3 transaction
              worker_address s) as (events & r & s' & Hrun & Htr & _ & Hpath).
  exists events, r, s'. split_all; [exact Hrun | exact Htr | |].
  - exact (send_path_outcome _ _ _ _ Hpath).
  - intros e He Hin. exact (send_path_failure_handled _ _ _ _ e Hpath He Hin).
Qed.

(** C3 as stated fails.  The remote rejects the broadcast ("insufficient
    funds"), and on another remote the wait for the receipt runs into
    its timeout: both times the call returns its usual dict after logging
    "A transaction has been confirmed", and nothing is raised. *)
Lemma send_raw_transaction_counterexample :
  (eth_send_raw_transaction Sim.rejecting (rawTransaction Sim.signed) 1
     = (inl (PyException "ValueError: insufficient funds"), 2)
   /\ fst (send_raw_transaction Sim.elapse Sim.signed Sim.rejecting
             Sim.rejecting Sim.worker Sim.start) = Ret no_result
   /\ trace (snd (send_raw_transaction Sim.elapse Sim.signed Sim.rejecting
                    Sim.rejecting Sim.worker Sim.start))
      = [EvGetTransactionCount Sim.worker (inr 0%Z);
         EvSendRawTransaction (rawTransaction Sim.signed)
           (inl (PyException "ValueError: insufficient funds"));
         EvLog ERROR "Error sending transaction : {e}";
         EvLog INFO "A transaction has been confirmed"])
  /\ (fst (send_raw_transaction Sim.elapse Sim.signed Sim.stuck Sim.stuck
             Sim.worker Sim.start) = Ret no_result
      /\ List.last (remote_calls_of
                      (trace (snd (send_raw_transaction Sim.elapse Sim.signed
                                     Sim.stuck Sim.stuck Sim.worker Sim.start))))
                   (EvLog INFO "")
         = EvWaitForReceipt "0xhash" 120 20 (inl (PyException "TimeExhausted"))).
Proof. vm_compute. repeat split. Qed.

(** ** nonce *)

(** C5, as amended.  When the remote read of the transaction count fails
    with an [Exception], [nonce] logs an error and returns [None] to its
    caller; nothing is raised. *)
Theorem nonce_failure_returns_None {World : Type} (read_web3 : web3 World)
    (worker_address : string) (s : state World) (e : exn) (w : World) :
  eth_get_transaction_count read_web3 worker_address (world s) = (inl e, w) ->
  is_Exception e = true ->
  nonce worker_address read_web3 s =
    (Ret None,
     {| world := w; gas_cache := gas_cache s;
        trace := trace s
                 ++ [EvGetTransactionCount worker_address (inl e);
                     EvLog ERROR "Error getting nonce ({worker_address})"] |}).
Proof.
  intros Hget He.
  unfold nonce, try_except, bind at 1, get_transaction_count, remote.
  rewrite Hget. cbv beta iota zeta. rewrite He.
  unfold bind, logging, ret. cbn [world gas_cache trace].
  now rewrite <- app_assoc.
Qed.

Lemma nonce_failure_returns_None_witness :
  eth_get_transaction_count Sim.offline Sim.worker (world Sim.start)
    = (inl (PyException "ClientConnectorError"), 1)
  /\ is_Exception (PyException "ClientConnectorError") = true
  /\ nonce Sim.worker Sim.offline Sim.start =
       (Ret None,
        {| world := 1; gas_cache := gas_cache Sim.start;
           trace := trace Sim.start
                    ++ [EvGetTransactionCount Sim.worker
                          (inl (PyException "ClientConnectorError"));
                        EvLog ERROR "Error getting nonce ({worker_address})"] |}).
Proof.
  split; [reflexivity | split; [reflexivity |]].
  apply (nonce_failure_returns_None Sim.offline Sim.worker Sim.start
           (PyException "ClientConnectorError") 1); reflexivity.
Defined.

(** C5 as stated fails: the remote read fails and the call returns
    [None], which is no integer, instead of raising. *)
Lemma nonce_counterexample :
  eth_get_transaction_count Sim.offline Sim.worker (world Sim.start)
    = (inl (PyException "ClientConnectorError"), 1)
  /\ fst (nonce Sim.worker Sim.offline Sim.start) = Ret None
  /\ (forall e : exn,
        fst (nonce Sim.worker Sim.offline Sim.start) <> Raise e).
Proof.
  split; [reflexivity | split; [reflexivity |]].
  intros e. vm_compute. discriminate.
Qed.

(** A read that succeeds is returned as it is. *)
Lemma nonce_success {World : Type} (read_web3 : web3 World)
    (worker_address : string) (s : state World) (n : Z) (w : World) :
  eth_get_transaction_count read_web3 worker_address (world s) = (inr n, w) ->
  fst (nonce worker_address read_web3 s) = Ret (Some n).
Proof.
  intros Hget.
  unfold nonce, try_except, bind, get_transaction_count, remote, ret.
  now rewrite Hget.
Qed.

(** ** faucet *)

Section FaucetFacts.

Context {World : Type}.
Variable elapse : Q -> World -> World.
Variable is_address : string -> bool.
Variables write_web3 read_web3 : web3 World.

Lemma faucet_invalid_address (__balance__ : Z) (selected_faucet : Z * string)
    (worker_address : string) (s : state World) :
  is_address worker_address = false ->
  faucet elapse is_address __balance__ write_web3 read_web3 selected_faucet
    worker_address s
  = (Exit 1,
     {| world := world s; gas_cache := gas_cache s;
        trace := trace s ++ [EvLog CRITICAL "Invalid worker address"] |}).
Proof.
  intros Hbad. unfold faucet. rewrite Hbad. reflexivity.
Qed.

Lemma faucet_wait (__balance__ : Z) (selected_faucet : Z * string)
    (worker_address : string) (s : state World) (faucet_address : string)
    (signed : SignedTransaction) (b : Z) (h : string) (w1 w2 : World) :
  is_address worker_address = true ->
  account_from_key read_web3 (snd selected_faucet) = inr faucet_address ->
  eth_get_transaction_count read_web3 faucet_address (world s) = (inr b, w1) ->
  account_sign_transaction read_web3 (faucet_transaction b worker_address)
    (snd selected_faucet) = inr signed ->
  eth_send_raw_transaction write_web3 (rawTransaction signed) w1
    = (inr h, w2) ->
  exists events : list event,
    trace (snd (faucet elapse is_address __balance__ write_web3 read_web3
                  selected_faucet worker_address s))
    = (trace s
       ++ [EvLog INFO "Faucet with '{selected_faucet} and {worker_address}";
           EvGetTransactionCount faucet_address (inr b);
           EvSendRawTransaction (rawTransaction signed) (inr h);
           EvSleep 3;
           EvLog INFO "Waiting for transaction confirmation"]
       ++ events)%list
    /\ confirmation_wait faucet_address b h events.
Proof.
  intros Hok Hkey Hget Hsign Hsend.
  unfold faucet. rewrite Hok. cbn [negb].
  unfold bind at 1, ret. unfold bind at 1, logging.
  unfold bind at 1, lift_result. rewrite Hkey.
  unfold bind at 1, get_transaction_count, remote. cbn [world gas_cache trace].
  rewrite Hget. cbv beta iota zeta.
  unfold bind at 1. rewrite Hsign.
  unfold bind at 1, send_raw, remote. cbn [world gas_cache trace].
  rewrite Hsend. cbv beta iota zeta.
  unfold bind at 1, asyncio_sleep. cbn [world gas_cache trace].
  unfold bind at 1. cbn [world gas_cache trace].
  unfold bind at 1.
  match goal with
  | |- context [nonce_poll _ _ ?a _ _ ?s1] =>
      destruct (nonce_poll_rounds elapse read_web3 a b 10 0 s1 ltac:(lia))
        as (earlier & last & r & s' & Hrun & Htr & _ & Hlen & Hall & Hend)
  end.
  cbn [trace] in Htr. rewrite Hrun.
  destruct last as [e | c].
  - pose proof (poll_end_failure_raises _ _ _ _ _ Hend) as Hr. subst r.
    eexists. split.
    + cbn [snd]. rewrite Htr, <- !app_assoc. cbn [app].
      rewrite <- (app_nil_r (poll_events _ 0 (earlier ++ [inl e]))) at 1.
      reflexivity.
    + exists earlier, (inl e), (Raise e), [].
      split_all; [reflexivity | exact Hlen | exact Hall | exact Hend | |].
      * intros c Hc. discriminate Hc.
      * reflexivity.
  - pose proof (poll_end_count_has_ret _ _ _ _ _ Hend) as Hr. subst r.
    unfold bind at 1, wait_for_transaction_receipt, remote.
    destruct (eth_wait_for_transaction_receipt read_web3 h 120 20 (world s'))
      as [[e | rc] w3].
    + eexists. split.
      * cbn [snd trace]. rewrite Htr, <- !app_assoc. cbn [app]. reflexivity.
      * exists earlier, (inr c), (Ret tt). eexists.
        split_all; [reflexivity | exact Hlen | exact Hall | exact Hend | |].
        -- intros c' _. eexists _, _. reflexivity.
        -- intros e' He'. discriminate He'.
    + eexists. split.
      * unfold logging. cbn [snd trace].
        rewrite Htr, <- !app_assoc. cbn [app]. reflexivity.
      * exists earlier, (inr c), (Ret tt). eexists.
        split_all; [reflexivity | exact Hlen | exact Hall | exact Hend | |].
        -- intros c' _. eexists _, _. reflexivity.
        -- intros e' He'. discriminate He'.
Qed.

End FaucetFacts.

(** C8.  With a worker address that fails the format check, [faucet]
    logs "Invalid worker address" and leaves the process with status 1.
    That log record is the only event: the remote world is untouched, no
    transaction count is read, nothing is signed or broadcast. *)
Theorem faucet_aborts_on_invalid_address {World : Type}
    (elapse : Q -> World -> World) (is_address : string -> bool)
    (__balance__ : Z) (write_web3 read_web3 : web3 World)
    (selected_faucet : Z * string) (worker_address : string)
    (s : state World) :
  is_address worker_address = false ->
  exists (events : list event) (s' : state World),
    faucet elapse is_address __balance__ write_web3 read_web3 selected_faucet
      worker_address s = (Exit 1, s')
    /\ world s' = world s
    /\ trace s' = (trace s ++ events)%list
    /\ events = [EvLog CRITICAL "Invalid worker address"]
    /\ remote_calls_of events = [].
Proof.
  intros Hbad. eexists _, _.
  split; [exact (faucet_invalid_address elapse is_address write_web3 read_web3
                   __balance__ selected_faucet worker_address s Hbad) |].
  cbn [world trace]. split_all; reflexivity.
Qed.

Lemma faucet_aborts_on_invalid_address_witness :
  Sim.is_address "0x5290" = false
  /\ exists (events : list event) (s' : state Sim.remote_calls),
       faucet Sim.elapse Sim.is_address 0 (Sim.healthy 21000)
         (Sim.healthy 21000) (17%Z, private_key_base +:+ "0011") "0x5290"
         Sim.start = (Exit 1, s')
       /\ world s' = world Sim.start
       /\ trace s' = (trace Sim.start ++ events)%list
       /\ events = [EvLog CRITICAL "Invalid worker address"]
       /\ remote_calls_of events = [].
Proof.
  split; [reflexivity |].
  apply (faucet_aborts_on_invalid_address Sim.elapse Sim.is_address 0
           (Sim.healthy 21000) (Sim.healthy 21000)
           (17%Z, private_key_base +:+ "0011") "0x5290" Sim.start).
  reflexivity.
Defined.

(** ** The confirmation wait *)

(** C4, as amended.  In [send_raw_transaction] and in [faucet] alike,
    once the baseline count [b] has been read and the broadcast has
    given the hash [h] (in [faucet]: of the transfer that was signed),
    what follows is a confirmation wait: rounds of the nonce poll, at
    most ten, round [i] sleeping [i * 1.5 + 1] seconds before it reads
    the count, every round but the last reading a count not above [b],
    the last one reading the first count above [b] or being the tenth.
    When every read of the poll returned a count, the wait for the
    receipt of [h] with timeout 120 and poll interval 20 comes next,
    whether the count went up or not.  When a read of the poll raises,
    the wait ends there: no remote call follows, the receipt is not
    waited for. *)
Theorem confirmation_wait_after_broadcast {World : Type}
    (elapse : Q -> World -> World) (is_address : string -> bool)
    (write_web3 read_web3 : web3 World) :
  (forall (transaction : SignedTransaction) (worker_address : string)
          (s : state World) (b : Z) (h : string) (w1 w2 : World),
      eth_get_transaction_count read_web3 worker_address (world s)
        = (inr b, w1) ->
      eth_send_raw_transaction write_web3 (rawTransaction transaction) w1
        = (inr h, w2) ->
      exists events : list event,
        trace (snd (send_raw_transaction elapse transaction write_web3
                      read_web3 worker_address s))
        = (trace s
           ++ [EvGetTransactionCount worker_address (inr b);
               EvSendRawTransaction (rawTransaction transaction) (inr h);
               EvLog INFO "A transaction has been sent";
               EvLog INFO "Waiting for transaction confirmation"]
           ++ events)%list
        /\ confirmation_wait worker_address b h events)
  /\ (forall (__balance__ : Z) (selected_faucet : Z * string)
             (worker_address : string) (s : state World)
             (faucet_address : string) (signed : SignedTransaction)
             (b : Z) (h : string) (w1 w2 : World),
        is_address worker_address = true ->
        account_from_key read_web3 (snd selected_faucet)
          = inr faucet_address ->
        eth_get_transaction_count read_web3 faucet_address (world s)
          = (inr b, w1) ->
        account_sign_transaction read_web3
          (faucet_transaction b worker_address) (snd selected_faucet)
          = inr signed ->
        eth_send_raw_transaction write_web3 (rawTransaction signed) w1
          = (inr h, w2) ->
        exists events : list event,
          trace (snd (faucet elapse is_address __balance__ write_web3
                        read_web3 selected_faucet worker_address s))
          = (trace s
             ++ [EvLog INFO "Faucet with '{selected_faucet} and {worker_address}";
                 EvGetTransactionCount faucet_address (inr b);
                 EvSendRawTransaction (rawTransaction signed) (inr h);
                 EvSleep 3;
                 EvLog INFO "Waiting for transaction confirmation"]
             ++ events)%list
          /\ confirmation_wait faucet_address b h events).
Proof.
  split.
  - intros transaction worker_address s b h w1 w2 Hget Hsend.
    exact (send_raw_transaction_wait elapse write_web3 read_web3 transaction
             worker_address s b h w1 w2 Hget Hsend).
  - intros __balance__ selected_faucet worker_address s faucet_address signed
      b h w1 w2 Hok Hkey Hget Hsign Hsend.
    exact (faucet_wait elapse is_address write_web3 read_web3 __balance__
             selected_faucet worker_address s faucet_address signed b h w1 w2
             Hok Hkey Hget Hsign Hsend).
Qed.

Lemma confirmation_wait_after_broadcast_witness :
  (eth_get_transaction_count Sim.mining Sim.worker (world Sim.start)
     = (inr 5%Z, 1)
   /\ eth_send_raw_transaction Sim.mining (rawTransaction Sim.signed) 1
      = (inr "0xhash", 2)
   /\ exists events : list event,
        trace (snd (send_raw_transaction Sim.elapse Sim.signed Sim.mining
                      Sim.mining Sim.worker Sim.start))
        = (trace Sim.start
           ++ [EvGetTransactionCount Sim.worker (inr 5%Z);
               EvSendRawTransaction (rawTransaction Sim.signed) (inr "0xhash");
               EvLog INFO "A transaction has been sent";
               EvLog INFO "Waiting for transaction confirmation"]
           ++ events)%list
        /\ confirmation_wait Sim.worker 5 "0xhash" events)
  /\ (Sim.is_address Sim.worker = true
      /\ account_from_key Sim.mining (snd (17%Z, private_key_base +:+ "0011"))
         = inr ("0xfaucet" +:+ private_key_base +:+ "0011")
      /\ eth_get_transaction_count Sim.mining
           ("0xfaucet" +:+ private_key_base +:+ "0011") (world Sim.start)
         = (inr 5%Z, 1)
      /\ account_sign_transaction Sim.mining
           (faucet_transaction 5 Sim.worker)
           (snd (17%Z, private_key_base +:+ "0011"))
         = inr {| rawTransaction := "raw:b'Hi Exorde!'";
                  signed_hash := "0xhash" |}
      /\ eth_send_raw_transaction Sim.mining
           (rawTransaction {| rawTransaction := "raw:b'Hi Exorde!'";
                              signed_hash := "0xhash" |}) 1
         = (inr "0xhash", 2)
      /\ exists events : list event,
           trace (snd (faucet Sim.elapse Sim.is_address 0 Sim.mining Sim.mining
                         (17%Z, private_key_base +:+ "0011") Sim.worker
                         Sim.start))
           = (trace Sim.start
              ++ [EvLog INFO "Faucet with '{selected_faucet} and {worker_address}";
                  EvGetTransactionCount
                    ("0xfaucet" +:+ private_key_base +:+ "0011") (inr 5%Z);
                  EvSendRawTransaction
                    (rawTransaction {| rawTransaction := "raw:b'Hi Exorde!'";
                                       signed_hash := "0xhash" |})
                    (inr "0xhash");
                  EvSleep 3;
                  EvLog INFO "Waiting for transaction confirmation"]
              ++ events)%list
           /\ confirmation_wait ("0xfaucet" +:+ private_key_base +:+ "0011")
                5 "0xhash" events).
Proof.
  destruct (confirmation_wait_after_broadcast Sim.elapse Sim.is_address
              Sim.mining Sim.mining) as [Hsend Hfaucet].
  split.
  - split; [reflexivity | split; [reflexivity |]].
    apply (Hsend Sim.signed Sim.worker Sim.start 5%Z "0xhash" 1 2);
      reflexivity.
  - split; [reflexivity | split; [reflexivity | split; [reflexivity |
      split; [reflexivity | split; [reflexivity |]]]]].
    apply (Hfaucet 0%Z (17%Z, private_key_base +:+ "0011") Sim.worker
             Sim.start ("0xfaucet" +:+ private_key_base +:+ "0011")
             {| rawTransaction := "raw:b'Hi Exorde!'"; signed_hash := "0xhash" |}
             5%Z "0xhash" 1 2); reflexivity.
Defined.

(** C4 as stated fails.  The baseline is read, the transaction is
    broadcast, the first read of the poll gives a count that has not
    gone up, and the second read of the poll raises: the wait for the
    receipt is never attempted.  [send_raw_transaction] logs the error
    and "A transaction has been confirmed" and returns; [faucet]
    raises. *)
Lemma confirmation_wait_counterexample :
  (let run := send_raw_transaction Sim.elapse Sim.signed Lab.fading Lab.fading
                Sim.worker Sim.start in
   remote_calls_of (trace (snd run))
   = [EvGetTransactionCount Sim.worker (inr 5%Z);
      EvSendRawTransaction (rawTransaction Sim.signed) (inr "0xhash");
      EvGetTransactionCount Sim.worker (inr 5%Z);
      EvGetTransactionCount Sim.worker
        (inl (PyException "ClientConnectorError"))]
   /\ (forall (h : string) (timeout poll : Z) (a : exn + receipt),
         ~ List.In (EvWaitForReceipt h timeout poll a) (trace (snd run)))
   /\ fst run = Ret no_result)
  /\ (let run := faucet Sim.elapse Sim.is_address 0 Lab.fading Lab.fading
                   (17%Z, private_key_base +:+ "0011") Sim.worker Sim.start in
      (forall (h : string) (timeout poll : Z) (a : exn + receipt),
          ~ List.In (EvWaitForReceipt h timeout poll a) (trace (snd run)))
      /\ List.length (broadcasts_of (trace (snd run))) = 1
      /\ fst run = Raise (PyException "ClientConnectorError")).
Proof.
  split.
  - vm_compute. split; [reflexivity | split; [| reflexivity]].
    intros h timeout poll a Hin.
    repeat (destruct Hin as [Hin | Hin]; [discriminate Hin |]). exact Hin.
  - vm_compute. split; [| split; reflexivity].
    intros h timeout poll a Hin.
    repeat (destruct Hin as [Hin | Hin]; [discriminate Hin |]). exact Hin.
Qed.

(** The wait on a remote that mines before the third read of the poll:
    three rounds, then the wait for the receipt. *)
Example send_raw_transaction_mining :
  let tr := trace (snd (send_raw_transaction Sim.elapse Sim.signed Sim.mining
                          Sim.mining Sim.worker Sim.start)) in
  sleeps_of tr = [1; 5 # 2; 4]%Q
  /\ remote_calls_of tr
     = [EvGetTransactionCount Sim.worker (inr 5%Z);
        EvSendRawTransaction "0xf86b" (inr "0xhash");
        EvGetTransactionCount Sim.worker (inr 5%Z);
        EvGetTransactionCount Sim.worker (inr 5%Z);
        EvGetTransactionCount Sim.worker (inr 6%Z);
        EvWaitForReceipt "0xhash" 120 20
          (inr {| transactionHash := "0xhash" |})].
Proof. vm_compute. split; reflexivity. Qed.

(** The wait on a remote that never mines: all ten rounds, then the
    receipt all the same. *)
Example send_raw_transaction_stuck :
  let tr := trace (snd (send_raw_transaction Sim.elapse Sim.signed Sim.stuck
                          Sim.stuck Sim.worker Sim.start)) in
  sleeps_of tr = [1; 5 # 2; 4; 11 # 2; 7; 17 # 2; 10; 23 # 2; 13; 29 # 2]%Q
  /\ List.length (remote_calls_of tr) = 13
  /\ List.last (remote_calls_of tr) (EvLog INFO "")
     = EvWaitForReceipt "0xhash" 120 20 (inl (PyException "TimeExhausted")).
Proof. vm_compute. repeat split. Qed.

(** ** rotate_gateways *)

(** A generator gives the entries of the list round-robin from its
    counter on, for as long as it is asked. *)
Lemma take_gateways_round_robin (n : nat) :
  forall g : gateway_generator,
    fst (take_gateways n g)
    = List.map (fun i => nth (i mod List.length gateways) gateways "")
               (seq (counter g) n)
    /\ counter (snd (take_gateways n g)) = counter g + n.
Proof.
  induction n as [| n IH]; intros g.
  - cbn. split; [reflexivity | lia].
  - cbn [take_gateways seq List.map]. unfold next_gateway.
    specialize (IH {| counter := S (counter g) |}).
    destruct (take_gateways n {| counter := S (counter g) |}) as [urls g2].
    cbn [fst snd counter] in *. destruct IH as [Hurls Hcount].
    rewrite Hurls, Hcount. split; [reflexivity | lia].
Qed.

(** C7, as amended.  The first 2*N items of a new sequence, N = 7 the
    length of the list, are the list twice in a row, in its order: item
    [i] is entry [i mod N], so every entry of the list is produced
    exactly twice and every URL twice as often as the list holds it.
    Each new sequence starts at entry 0. *)
Theorem rotate_gateways_two_rounds :
  List.length gateways = 7
  /\ fst (take_gateways (2 * List.length gateways) (rotate_gateways tt))
     = (gateways ++ gateways)%list
  /\ (forall i : nat,
        i < 2 * List.length gateways ->
        nth i (fst (take_gateways (2 * List.length gateways)
                      (rotate_gateways tt))) ""
        = nth (i mod List.length gateways) gateways "")
  /\ (forall url : string,
        count_occ string_dec
          (fst (take_gateways (2 * List.length gateways) (rotate_gateways tt)))
          url
        = 2 * count_occ string_dec gateways url)
  /\ counter (rotate_gateways tt) = 0
  /\ fst (next_gateway (rotate_gateways tt)) = nth 0 gateways "".
Proof.
  assert (Htwice : fst (take_gateways (2 * List.length gateways)
                          (rotate_gateways tt)) = (gateways ++ gateways)%list)
    by reflexivity.
  split_all; try reflexivity.
  - intros i Hi. rewrite Htwice.
    do 14 (destruct i as [| i]; [reflexivity |]).
    cbn in Hi. lia.
  - intros url. rewrite Htwice, count_occ_app. lia.
Qed.

(** C7 as stated fails: the list holds the exorde gateway three times,
    so the first 2*N items hold that URL six times, not twice. *)
Lemma rotate_gateways_counterexample :
  List.In "http://ipfs-gateway.exorde.network/ipfs/" gateways
  /\ count_occ string_dec
       (fst (take_gateways (2 * List.length gateways) (rotate_gateways tt)))
       "http://ipfs-gateway.exorde.network/ipfs/" = 6
  /\ count_occ string_dec
       (fst (take_gateways (2 * List.length gateways) (rotate_gateways tt)))
       "http://ipfs-gateway.exorde.network/ipfs/" <> 2.
Proof.
  split; [left; reflexivity |].
  split; [vm_compute; reflexivity | vm_compute; discriminate].
Qed.

(** ** select_random_faucet *)

Lemma string_length_append (a b : string) :
  String.length (a +:+ b) = String.length a + String.length b.
Proof. induction a as [| c a IH]; simpl; [reflexivity | now rewrite IH]. Qed.

Lemma selectors_checked : forallb selector_ok (seq 0 500) = true.
Proof. vm_compute. reflexivity. Qed.

Lemma format_04x_selector (i : Z) :
  (0 <= i < 500)%Z ->
  String.length (format_04x i) = 4 /\ hex_value (format_04x i) = Some i.
Proof.
  intros Hi.
  pose proof (proj1 (forallb_forall selector_ok (seq 0 500)) selectors_checked
                (Z.to_nat i)) as Hok.
  rewrite in_seq in Hok. specialize (Hok ltac:(lia)).
  unfold selector_ok in Hok. rewrite Z2Nat.id in Hok by lia.
  apply andb_true_iff in Hok. destruct Hok as [Hlen Hval].
  split; [now apply Nat.eqb_eq |].
  destruct (hex_value (format_04x i)) as [v |]; [| discriminate].
  apply Z.eqb_eq in Hval. now subst.
Qed.

(** C9.  Whatever the random source draws from [range(0, 500, 1)],
    [select_random_faucet] returns an index [i] with 0 <= i < 500 and the
    key made of the base secret followed by the selector of [i]: exactly
    four hexadecimal digits that read back as [i].  The key has 64
    digits and is a function of the base and the index only. *)
Theorem select_random_faucet_derivation {Rng : Type}
    (randrange : Z -> Z -> Z -> Rng -> Z * Rng) (rng : Rng) :
  (forall (start stop : Z) (g : Rng),
      (start < stop)%Z ->
      (start <= fst (randrange start stop 1%Z g) < stop)%Z) ->
  exists (i : Z) (key : string) (rng' : Rng),
    select_random_faucet randrange rng = ((i, key), rng')
    /\ (0 <= i < 500)%Z
    /\ key = private_key_base +:+ format_04x i
    /\ String.length (format_04x i) = 4
    /\ hex_value (format_04x i) = Some i
    /\ String.length key = 64.
Proof.
  intros Hrange. unfold select_random_faucet.
  pose proof (Hrange 0%Z (499 + 1)%Z rng ltac:(lia)) as Hi.
  destruct (randrange 0%Z (499 + 1)%Z 1%Z rng) as [i rng'].
  cbn [fst] in Hi.
  assert (Hi' : (0 <= i < 500)%Z) by lia.
  destruct (format_04x_selector i Hi') as [Hlen Hval].
  exists i, (private_key_base +:+ format_04x i), rng'.
  split_all; try reflexivity; try assumption; try lia.
  rewrite string_length_append, Hlen. reflexivity.
Qed.

Lemma sim_randrange_in_range (start stop seed : Z) :
  (start < stop)%Z ->
  (start <= fst (Sim.randrange start stop 1 seed) < stop)%Z.
Proof.
  intros Hlt. unfold Sim.randrange. cbn [fst].
  replace (stop - start + 1 - 1)%Z with (stop - start)%Z by lia.
  rewrite Z.div_1_r.
  pose proof (Z.mod_pos_bound seed (stop - start) ltac:(lia)). lia.
Qed.

Lemma select_random_faucet_derivation_witness :
  (forall (start stop : Z) (g : Z),
      (start < stop)%Z ->
      (start <= fst (Sim.randrange start stop 1%Z g) < stop)%Z)
  /\ exists (i : Z) (key : string) (rng' : Z),
       select_random_faucet Sim.randrange 20230417%Z = ((i, key), rng')
       /\ (0 <= i < 500)%Z
       /\ key = private_key_base +:+ format_04x i
       /\ String.length (format_04x i) = 4
       /\ hex_value (format_04x i) = Some i
       /\ String.length key = 64.
Proof.
  split; [exact sim_randrange_in_range |].
  apply (select_random_faucet_derivation Sim.randrange 20230417%Z).
  exact sim_randrange_in_range.
Defined.

(** The draw 20230417 selects faucet 417. *)
Example select_random_faucet_run :
  fst (select_random_faucet Sim.randrange 20230417%Z)
  = (417%Z,
     "deaddeaddeaddead5fb92d83ed54c0ea1eb74e72a84ef980d42953caaa6d01a1").
Proof. vm_compute. reflexivity. Qed.

Example format_04x_samples :
  format_04x 0 = "0000" /\ format_04x 10 = "000a" /\ format_04x 499 = "01f3".
Proof. vm_compute. repeat split. Qed.

(** The boundary values of the gas rule: whatever side of the threshold
    the estimate falls on, the call assigns 10,000,000. *)
Example estimate_gas_boundaries :
  List.map (fun E => fst (estimate_gas Sim.transfer_a (Sim.healthy E) Sim.start))
           [0; 66666; 66667; 100000; 6666667; 10000000]%Z
  = List.repeat (Ret (set_gas Sim.transfer_a (PyInt 10000000))) 6.
Proof. vm_compute. reflexivity. Qed.

(* ================================================================= *)
(** * Further properties *)

(** ** estimate_gas and its cache *)

(** X1.  One call of [estimate_gas], however it ends: the entries of the
    cache under other keys are untouched, an entry already under the key
    of the transaction is kept, at most one call goes to the estimator,
    the process is not left, and a transaction that is returned is the
    caller's with only its gas set, to the entry the cache now holds
    under its key. *)
Theorem estimate_gas_frame {World : Type} (read_web3 : web3 World)
    (t : Transaction) (s : state World) :
  exists (r : outcome Transaction) (s' : state World),
    estimate_gas t read_web3 s = (r, s')
    /\ (forall k : gas_key_t,
          k <> gas_key t -> gas_cache s' !! k = gas_cache s !! k)
    /\ (forall v : pynum,
          gas_cache s !! gas_key t = Some v ->
          gas_cache s' !! gas_key t = Some v)
    /\ estimator_calls (trace s') <= estimator_calls (trace s) + 1
    /\ (forall code : Z, r <> Exit code)
    /\ (forall t' : Transaction,
          r = Ret t' ->
          exists g : pynum,
            t' = set_gas t g /\ gas_cache s' !! gas_key t = Some g).
Proof.
  destruct (gas_cache s !! gas_key t) as [g |] eqn:Hlook.
  - exists (Ret (set_gas t g)), s.
    split; [exact (estimate_gas_hit read_web3 t s g Hlook) |].
    split_all; try discriminate; try lia; auto.
    + intros v [= <-]. exact Hlook.
    + intros t' [= <-]. exists g. split; [reflexivity | exact Hlook].
  - destruct (eth_estimate_gas read_web3 t (world s)) as [[e | E] w] eqn:Hrpc.
    + eexists _, _.
      split; [exact (estimate_gas_miss_failure read_web3 t s e w Hlook Hrpc) |].
      cbn [gas_cache trace]. split_all; try discriminate; auto.
      unfold estimator_calls.
      rewrite List.filter_app, List.length_app. cbn. lia.
    + eexists _, _.
      split; [exact (estimate_gas_miss read_web3 t s E w Hlook Hrpc) |].
      cbn [gas_cache trace]. split_all; try discriminate.
      * intros k Hk. now rewrite lookup_insert_ne.
      * unfold estimator_calls.
        rewrite List.filter_app, List.length_app. cbn. lia.
      * intros t' [= <-]. exists (PyInt 10000000).
        split; [reflexivity | apply lookup_insert_eq].
Qed.

#[local] Set Warnings "-clear-no-such-hyp".

(** X2.  A run of calls in a row, on a remote side whose estimator
    always answers, from a cache that holds nothing but the floor (the
    empty one that [init_gas_cache] gives, say): every call returns,
    every transaction gets 10,000,000, the cache afterwards holds the
    keys it held and the keys of the transactions, all at the floor, and
    the estimator was invoked once for every entry the cache gained, so
    once per new key however often the key came. *)
Theorem estimate_each_fills_cache {World : Type} (read_web3 : web3 World)
    (transactions : list Transaction) :
  (forall (t : Transaction) (w : World),
      exists (E : Z) (w' : World), eth_estimate_gas read_web3 t w = (inr E, w')) ->
  forall s : state World,
    only_floor (gas_cache s) ->
    exists s' : state World,
      estimate_each transactions read_web3 s
      = (Ret (List.map (fun t => set_gas t (PyInt 10000000)) transactions), s')
      /\ only_floor (gas_cache s')
      /\ dom (gas_cache s')
         = dom (gas_cache s) ∪ list_to_set (List.map gas_key transactions)
      /\ estimator_calls (trace s') + size (gas_cache s)
         = estimator_calls (trace s) + size (gas_cache s').
Proof.
  intros Hanswers.
  induction transactions as [| t rest IH]; intros s Hfloor.
  - exists s. cbn. split_all; [reflexivity | exact Hfloor | set_solver | lia].
  - cbn [estimate_each List.map]. unfold bind at 1.
    destruct (gas_cache s !! gas_key t) as [g |] eqn:Hlook.
    + pose proof (Hfloor _ _ Hlook) as ->.
      rewrite (estimate_gas_hit read_web3 t s _ Hlook).
      destruct (IH s Hfloor) as (s' & Hrun & Hfloor' & Hdom & Hcalls).
      exists s'. unfold bind at 1. rewrite Hrun. unfold ret.
      split_all; [reflexivity | exact Hfloor' | | exact Hcalls].
      rewrite Hdom. cbn [List.map list_to_set].
      assert (gas_key t ∈ dom (gas_cache s)) by (apply elem_of_dom; eauto).
      set_solver.
    + destruct (Hanswers t (world s)) as (E & w & Hrpc).
      rewrite (estimate_gas_miss read_web3 t s E w Hlook Hrpc).
      unfold bind at 1.
      match goal with
      | |- context [estimate_each rest read_web3 ?s1] =>
          destruct (IH s1) as (s' & Hrun & Hfloor' & Hdom & Hcalls)
      end.
      { cbn [gas_cache]. intros k v Hk.
        destruct (decide (k = gas_key t)) as [-> | Hne].
        - rewrite lookup_insert_eq in Hk. congruence.
        - rewrite lookup_insert_ne in Hk by congruence. eauto. }
      exists s'. rewrite Hrun. unfold ret.
      cbn [gas_cache trace] in Hdom, Hcalls.
      split_all; [reflexivity | exact Hfloor' | |].
      * rewrite Hdom, dom_insert_L. cbn [List.map list_to_set]. set_solver.
      * rewrite map_size_insert_None in Hcalls by exact Hlook.
        unfold estimator_calls in *.
        rewrite List.filter_app, List.length_app in Hcalls. cbn in Hcalls. lia.
Qed.

Lemma estimate_each_fills_cache_witness :
  (forall (t : Transaction) (w : Sim.remote_calls),
      exists (E : Z) (w' : Sim.remote_calls),
        eth_estimate_gas (Sim.healthy 21000) t w = (inr E, w'))
  /\ only_floor (gas_cache Sim.start)
  /\ exists s' : state Sim.remote_calls,
       estimate_each [Sim.transfer_a; Lab.approve; Sim.transfer_b]
         (Sim.healthy 21000) Sim.start
       = (Ret (List.map (fun t => set_gas t (PyInt 10000000))
                        [Sim.transfer_a; Lab.approve; Sim.transfer_b]), s')
       /\ only_floor (gas_cache s')
       /\ dom (gas_cache s')
          = dom (gas_cache Sim.start)
            ∪ list_to_set (List.map gas_key
                             [Sim.transfer_a; Lab.approve; Sim.transfer_b])
       /\ estimator_calls (trace s') + size (gas_cache Sim.start)
          = estimator_calls (trace Sim.start) + size (gas_cache s').
Proof.
  assert (Hanswers : forall (t : Transaction) (w : Sim.remote_calls),
             exists (E : Z) (w' : Sim.remote_calls),
               eth_estimate_gas (Sim.healthy 21000) t w = (inr E, w'))
    by (intros t w; eexists _, _; reflexivity).
  assert (Hfloor : only_floor (gas_cache Sim.start))
    by (intros k v Hk; cbn in Hk; rewrite lookup_empty in Hk; discriminate).
  split; [exact Hanswers | split; [exact Hfloor |]].
  exact (estimate_each_fills_cache (Sim.healthy 21000)
           [Sim.transfer_a; Lab.approve; Sim.transfer_b] Hanswers
           Sim.start Hfloor).
Defined.

(** Three calls, two keys: the estimator is asked twice. *)
Example estimate_each_run :
  estimator_calls
    (trace (snd (estimate_each [Sim.transfer_a; Lab.approve; Sim.transfer_b]
                   (Sim.healthy 21000) Sim.start))) = 2.
Proof. vm_compute. reflexivity. Qed.

(** X3.  A failure of the estimator is not remembered: after a miss on
    which the estimator failed, the next call on the same transaction
    asks the estimator again, and when it answers, the call returns with
    the floor and fills the cache.  Two calls went to the estimator. *)
Theorem estimate_gas_retries_after_failure {World : Type}
    (read_web3 : web3 World) (t : Transaction) (s : state World)
    (e : exn) (E : Z) (w1 w2 : World) :
  gas_cache s !! gas_key t = None ->
  eth_estimate_gas read_web3 t (world s) = (inl e, w1) ->
  eth_estimate_gas read_web3 t w1 = (inr E, w2) ->
  exists s1 s2 : state World,
    estimate_gas t read_web3 s = (Raise e, s1)
    /\ estimate_gas t read_web3 s1 = (Ret (set_gas t (PyInt 10000000)), s2)
    /\ gas_cache s2 !! gas_key t = Some (PyInt 10000000)
    /\ estimator_calls (trace s2) = estimator_calls (trace s) + 2.
Proof.
  intros Hmiss Hfail Hok.
  pose proof (estimate_gas_miss_failure read_web3 t s e w1 Hmiss Hfail) as H1.
  eexists _, _. split; [exact H1 |].
  split.
  { apply (estimate_gas_miss read_web3 t _ E w2); cbn; assumption. }
  cbn [gas_cache trace]. split; [apply lookup_insert_eq |].
  unfold estimator_calls. rewrite !List.filter_app, !List.length_app. cbn. lia.
Qed.

Lemma estimate_gas_retries_after_failure_witness :
  gas_cache Sim.start !! gas_key Sim.transfer_a = None
  /\ eth_estimate_gas Lab.flaky Sim.transfer_a (world Sim.start)
     = (inl (PyException "TimeoutError"), 1)
  /\ eth_estimate_gas Lab.flaky Sim.transfer_a 1 = (inr 21000%Z, 2)
  /\ exists s1 s2 : state Sim.remote_calls,
       estimate_gas Sim.transfer_a Lab.flaky Sim.start
         = (Raise (PyException "TimeoutError"), s1)
       /\ estimate_gas Sim.transfer_a Lab.flaky s1
          = (Ret (set_gas Sim.transfer_a (PyInt 10000000)), s2)
       /\ gas_cache s2 !! gas_key Sim.transfer_a = Some (PyInt 10000000)
       /\ estimator_calls (trace s2) = estimator_calls (trace Sim.start) + 2.
Proof.
  split; [reflexivity | split; [reflexivity | split; [reflexivity |]]].
  apply (estimate_gas_retries_after_failure Lab.flaky Sim.transfer_a Sim.start
           (PyException "TimeoutError") 21000 1 2); reflexivity.
Defined.

(** ** Reading failures, broadcasts and sleeps off a trace *)

Lemma first_failure_app (tr1 tr2 : list event) :
  first_failure (tr1 ++ tr2)
  = match first_failure tr1 with
    | Some e => Some e
    | None => first_failure tr2
    end.
Proof.
  induction tr1 as [| ev tr1 IH]; [reflexivity |].
  cbn [app first_failure]. now destruct (event_failure ev).
Qed.

Lemma first_failure_poll_events (address : string) (baseline : Z)
    (earlier : list (exn + Z)) (last : exn + Z) :
  Forall (not_incremented baseline) earlier ->
  forall i : nat,
    first_failure (poll_events address i (earlier ++ [last]))
    = match last with
      | inl e => Some e
      | inr _ => None
      end.
Proof.
  induction 1 as [| a earlier (c & -> & _) _ IH]; intros i.
  - now destruct last.
  - cbn [app poll_events first_failure event_failure]. apply IH.
Qed.

Lemma first_failure_handled (e : exn) : first_failure (handled_events e) = None.
Proof. unfold handled_events. now destruct (is_Exception e). Qed.

Lemma remote_calls_of_app (tr1 tr2 : list event) :
  remote_calls_of (tr1 ++ tr2) = (remote_calls_of tr1 ++ remote_calls_of tr2)%list.
Proof. apply List.filter_app. Qed.

Lemma remote_calls_of_handled (e : exn) : remote_calls_of (handled_events e) = [].
Proof. unfold handled_events. now destruct (is_Exception e). Qed.

Lemma remote_calls_of_poll_events (address : string) (answers : list (exn + Z)) :
  forall i : nat,
    remote_calls_of (poll_events address i answers)
    = List.map (EvGetTransactionCount address) answers.
Proof.
  induction answers as [| a rest IH]; intros i; [reflexivity |].
  cbn [poll_events List.map]. unfold remote_calls_of in *.
  cbn [List.filter is_remote_call]. now rewrite IH.
Qed.

Lemma broadcasts_of_app (tr1 tr2 : list event) :
  broadcasts_of (tr1 ++ tr2) = (broadcasts_of tr1 ++ broadcasts_of tr2)%list.
Proof. apply List.filter_app. Qed.

Lemma broadcasts_of_handled (e : exn) : broadcasts_of (handled_events e) = [].
Proof. unfold handled_events. now destruct (is_Exception e). Qed.

Lemma broadcasts_of_poll_events (address : string) (answers : list (exn + Z)) :
  forall i : nat, broadcasts_of (poll_events address i answers) = [].
Proof.
  induction answers as [| a rest IH]; intros i; [reflexivity |].
  cbn [poll_events]. unfold broadcasts_of in *.
  cbn [List.filter is_broadcast]. apply IH.
Qed.

Lemma slept_app (tr1 tr2 : list event) :
  (slept (tr1 ++ tr2) == slept tr1 + slept tr2)%Q.
Proof.
  induction tr1 as [| ev tr1 IH]; cbn [app slept].
  - now rewrite Qplus_0_l.
  - destruct ev; try exact IH. rewrite IH. apply Qplus_assoc.
Qed.

Lemma slept_handled (e : exn) : slept (handled_events e) = 0%Q.
Proof. unfold handled_events. now destruct (is_Exception e). Qed.

Lemma slept_poll_events (address : string) (answers : list (exn + Z)) :
  forall i : nat,
    slept (poll_events address i answers) = schedule i (List.length answers).
Proof.
  induction answers as [| a rest IH]; intros i; [reflexivity |].
  cbn [poll_events slept List.length schedule]. now rewrite IH.
Qed.

(** Ten attempts sleep 77.5 seconds, fewer sleep less. *)
Lemma schedule_bound (n : nat) :
  n <= 10 -> (schedule 0 n <= 155 # 2)%Q.
Proof.
  intros Hn.
  do 11 (destruct n as [| n]; [vm_compute; discriminate |]). lia.
Qed.

(** ** send_raw_transaction, further *)

(** What a path of [send_raw_transaction] says about failures. *)
Lemma send_path_first_failure (address raw : string) (events : list event)
    (r : outcome sent_result) :
  send_path address raw events r ->
  r = match first_failure events with
      | Some e => handled_outcome e
      | None => Ret no_result
      end
  /\ (forall e : exn,
        first_failure events = Some e ->
        exists (before : list event) (ev : event) (after : list event),
          events = (before ++ ev :: after)%list
          /\ event_failure ev = Some e
          /\ first_failure before = None
          /\ remote_calls_of after = []).
Proof.
  intros Hpath.
  destruct Hpath as [e0 | b e0 | b h earlier e0 Hall Hlen
                    | b h earlier c e0 Hall Hend | b h earlier c rc Hall Hend].
  - split; [reflexivity |]. intros e [= <-].
    exists [], (EvGetTransactionCount address (inl e0)), (handled_events e0).
    split_all; try reflexivity. apply remote_calls_of_handled.
  - split; [reflexivity |]. intros e [= <-].
    exists [EvGetTransactionCount address (inr b)],
      (EvSendRawTransaction raw (inl e0)), (handled_events e0).
    split_all; try reflexivity. apply remote_calls_of_handled.
  - assert (Hff : first_failure (poll_events address 0 (earlier ++ [inl e0])
                                 ++ handled_events e0) = Some e0).
    { rewrite first_failure_app.
      now rewrite (first_failure_poll_events address b earlier (inl e0) Hall). }
    cbn [app first_failure event_failure]. rewrite Hff.
    split; [reflexivity |]. intros e [= <-].
    assert (Hsplit : forall i,
               poll_events address i (earlier ++ [inl e0])
               = (poll_events address i earlier
                  ++ [EvLog DEBUG "Waiting {sleep_time} seconds for faucet transaction confirmation";
                      EvSleep (inject_Z (Z.of_nat (i + List.length earlier))
                               * (3 # 2) + 1)]
                  ++ [EvGetTransactionCount address (inl e0)])%list).
    { clear. induction earlier as [| a rest IH]; intros i.
      - cbn. now rewrite Nat.add_0_r.
      - cbn [app poll_events List.length]. rewrite IH.
        now rewrite Nat.add_succ_r. }
    rewrite Hsplit.
    eexists (_ :: _ :: _ :: _ :: poll_events address 0 earlier ++ [_; _])%list,
      (EvGetTransactionCount address (inl e0)), (handled_events e0).
    split_all.
    + cbn [app]. rewrite <- !app_assoc. reflexivity.
    + reflexivity.
    + cbn [first_failure event_failure]. rewrite first_failure_app.
      destruct earlier as [| a earlier'] using rev_ind; [reflexivity |].
      apply Forall_app in Hall as [Hall' Hlast]. inversion Hlast as [| ? ? (c & -> & _) _]; subst.
      now rewrite (first_failure_poll_events address b earlier' (inr c) Hall').
    + apply remote_calls_of_handled.
  - assert (Hff : first_failure
                    (poll_events address 0 (earlier ++ [inr c])
                     ++ EvWaitForReceipt h 120 20 (inl e0) :: handled_events e0)
                  = Some e0).
    { rewrite first_failure_app.
      now rewrite (first_failure_poll_events address b earlier (inr c) Hall). }
    cbn [app first_failure event_failure]. rewrite Hff.
    split; [reflexivity |]. intros e [= <-].
    eexists (_ :: _ :: _ :: _ :: poll_events address 0 (earlier ++ [inr c]))%list,
      (EvWaitForReceipt h 120 20 (inl e0)), (handled_events e0).
    split_all.
    + reflexivity.
    + reflexivity.
    + cbn [first_failure event_failure].
      exact (first_failure_poll_events address b earlier (inr c) Hall 0).
    + apply remote_calls_of_handled.
  - assert (Hff : first_failure
                    (poll_events address 0 (earlier ++ [inr c])
                     ++ [EvWaitForReceipt h 120 20 (inr rc);
                         EvLog INFO "A transaction has been confirmed"])
                  = None).
    { rewrite first_failure_app.
      now rewrite (first_failure_poll_events address b earlier (inr c) Hall). }
    cbn [app first_failure event_failure]. rewrite Hff.
    split; [reflexivity |]. intros e [=].
Qed.

(** X4.  The outcome of [send_raw_transaction] is decided by the first
    remote call that fails: with none the dict is returned; with one,
    the handler's outcome for its exception (the dict again for an
    [Exception]).  The failed call is the last remote call of the run:
    nothing is read, broadcast or waited for after a failure. *)
Theorem send_raw_transaction_stops_at_first_failure {World : Type}
    (elapse : Q -> World -> World) (write_web3 read_web3 : web3 World)
    (transaction : SignedTransaction) (worker_address : string)
    (s : state World) :
  exists (events : list event) (r : outcome sent_result) (s' : state World),
    send_raw_transaction elapse transaction write_web3 read_web3
      worker_address s = (r, s')
    /\ trace s' = (trace s ++ events)%list
    /\ r = match first_failure events with
           | Some e => handled_outcome e
           | None => Ret no_result
           end
    /\ (forall e : exn,
          first_failure events = Some e ->
          exists (before : list event) (ev : event) (after : list event),
            events = (before ++ ev :: after)%list
            /\ event_failure ev = Some e
            /\ first_failure before = None
            /\ remote_calls_of after = []).
Proof.
  destruct (send_raw_transaction_path elapse write_web3 read_web3 transaction
              worker_address s) as (events & r & s' & Hrun & Htr & _ & Hpath).
  exists events, r, s'.
  destruct (send_path_first_failure _ _ _ _ Hpath) as [Hr Hlast].
  split_all; assumption.
Qed.

(** The broadcasts of a path. *)
Lemma send_path_broadcasts (address raw : string) (events : list event)
    (r : outcome sent_result) :
  send_path address raw events r ->
  List.length (broadcasts_of events) <= 1
  /\ (forall (raw' : string) (a : exn + string),
        List.In (EvSendRawTransaction raw' a) events ->
        raw' = raw
        /\ exists (b : Z) (rest : list event),
             events = EvGetTransactionCount address (inr b)
                      :: EvSendRawTransaction raw a :: rest).
Proof.
  intros Hpath.
  destruct Hpath as [e0 | b e0 | b h earlier e0 Hall Hlen
                    | b h earlier c e0 Hall Hend | b h earlier c rc Hall Hend].
  - split.
    + cbn. change (List.filter is_broadcast (handled_events e0))
        with (broadcasts_of (handled_events e0)).
      rewrite broadcasts_of_handled. cbn. lia.
    + intros raw' a [Hin | Hin]; [discriminate Hin | no_such_event Hin].
  - split.
    + cbn. change (List.filter is_broadcast (handled_events e0))
        with (broadcasts_of (handled_events e0)).
      rewrite broadcasts_of_handled. cbn. lia.
    + intros raw' a [Hin | [Hin | Hin]];
        [discriminate Hin | | no_such_event Hin].
      injection Hin as <- <-. split; [reflexivity |]. eauto.
  - split.
    + rewrite !broadcasts_of_app, broadcasts_of_poll_events,
        broadcasts_of_handled. cbn. lia.
    + intros raw' a Hin.
      rewrite !List.in_app_iff in Hin. cbn [List.In] in Hin.
      destruct Hin as [[Hin | [Hin | [Hin | [Hin | []]]]] | [Hin | Hin]];
        try discriminate Hin; try no_such_event Hin.
      injection Hin as <- <-. split; [reflexivity |]. cbn [app]. eauto.
  - split.
    + rewrite !broadcasts_of_app, broadcasts_of_poll_events.
      cbn. change (List.filter is_broadcast (handled_events e0))
        with (broadcasts_of (handled_events e0)).
      rewrite broadcasts_of_handled. cbn. lia.
    + intros raw' a Hin.
      rewrite !List.in_app_iff in Hin. cbn [List.In] in Hin.
      destruct Hin as [[Hin | [Hin | [Hin | [Hin | []]]]] | [Hin | [Hin | Hin]]];
        try discriminate Hin; try no_such_event Hin.
      injection Hin as <- <-. split; [reflexivity |]. cbn [app]. eauto.
  - split.
    + rewrite !broadcasts_of_app, broadcasts_of_poll_events. cbn. lia.
    + intros raw' a Hin.
      rewrite !List.in_app_iff in Hin. cbn [List.In] in Hin.
      destruct Hin as [[Hin | [Hin | [Hin | [Hin | []]]]]
                      | [Hin | [Hin | [Hin | []]]]];
        try discriminate Hin; try no_such_event Hin.
      injection Hin as <- <-. split; [reflexivity |]. cbn [app]. eauto.
Qed.

(** X5.  One run of [send_raw_transaction] broadcasts at most once, the
    transaction it was given, and only right after a read of the
    baseline count that succeeded: when that read fails nothing is sent.
    The run leaves the gas cache as it was. *)
Theorem send_raw_transaction_broadcasts_once {World : Type}
    (elapse : Q -> World -> World) (write_web3 read_web3 : web3 World)
    (transaction : SignedTransaction) (worker_address : string)
    (s : state World) :
  exists (events : list event) (r : outcome sent_result) (s' : state World),
    send_raw_transaction elapse transaction write_web3 read_web3
      worker_address s = (r, s')
    /\ trace s' = (trace s ++ events)%list
    /\ gas_cache s' = gas_cache s
    /\ List.length (broadcasts_of events) <= 1
    /\ (forall (raw : string) (a : exn + string),
          List.In (EvSendRawTransaction raw a) events ->
          raw = rawTransaction transaction
          /\ exists (b : Z) (rest : list event),
               events = EvGetTransactionCount worker_address (inr b)
                        :: EvSendRawTransaction (rawTransaction transaction) a
                        :: rest).
Proof.
  destruct (send_raw_transaction_path elapse write_web3 read_web3 transaction
              worker_address s) as (events & r & s' & Hrun & Htr & Hgc & Hpath).
  exists events, r, s'.
  destruct (send_path_broadcasts _ _ _ _ Hpath) as [Hone Hshape].
  split_all; assumption.
Qed.

Section BudgetFacts.

Context {World : Type}.
Variable elapse : Q -> World -> World.
Variables write_web3 read_web3 : web3 World.

(** Adding up the remote calls and the sleeps of a trace built from
    single events and the rounds of a poll. *)
Ltac count_calls :=
  rewrite ?remote_calls_of_app, ?remote_calls_of_poll_events,
    ?List.length_app, ?List.length_map in *;
  cbn [remote_calls_of List.filter is_remote_call List.length app] in *;
  rewrite ?List.length_app in *; cbn [List.length] in *; lia.

Ltac count_sleep H :=
  rewrite ?slept_app, ?slept_poll_events; cbn [slept];
  rewrite ?Qplus_0_l, ?Qplus_0_r;
  first [ discriminate | apply schedule_bound; exact H ].

Lemma send_raw_transaction_budget (transaction : SignedTransaction)
    (worker_address : string) (s : state World) :
  exists (events : list event) (s' : state World),
    snd (send_raw_transaction elapse transaction write_web3 read_web3
           worker_address s) = s'
    /\ trace s' = (trace s ++ events)%list
    /\ List.length (remote_calls_of events) <= 13
    /\ (slept events <= 155 # 2)%Q.
Proof.
  unfold send_raw_transaction.
  unfold bind at 1. unfold try_except.
  unfold bind at 1, get_transaction_count, remote.
  destruct (eth_get_transaction_count read_web3 worker_address (world s))
    as [[e | b] w1].
  { destruct (is_Exception e); unfold bind, logging, ret;
      eexists _, _; (split; [reflexivity |]); cbn [snd trace];
      rewrite <- ?app_assoc; (split; [reflexivity |]);
      (split; [cbn; lia | discriminate]). }
  cbv beta iota zeta.
  unfold bind at 1, send_raw, remote. cbn [world gas_cache trace].
  destruct (eth_send_raw_transaction write_web3 (rawTransaction transaction) w1)
    as [[e | h] w2].
  { destruct (is_Exception e); unfold bind, logging, ret;
      eexists _, _; (split; [reflexivity |]); cbn [snd trace];
      rewrite <- ?app_assoc; (split; [reflexivity |]);
      (split; [cbn; lia | discriminate]). }
  cbv beta iota zeta.
  unfold bind at 1, logging. cbn [world gas_cache trace].
  unfold bind at 1. cbn [world gas_cache trace].
  unfold bind at 1.
  match goal with
  | |- context [nonce_poll _ _ _ _ _ ?s1] =>
      destruct (nonce_poll_rounds elapse read_web3 worker_address b 10 0 s1
                  ltac:(lia))
        as (earlier & last & r & s' & Hrun & Htr & _ & Hlen & _ & Hend)
  end.
  cbn [trace] in Htr. rewrite Hrun.
  destruct last as [e | c].
  - pose proof (poll_end_failure_raises _ _ _ _ _ Hend) as Hr. subst r.
    destruct (is_Exception e); unfold bind, ret;
      eexists _, _; (split; [reflexivity |]); cbn [snd trace];
      rewrite Htr, <- ?app_assoc; (split; [reflexivity |]);
      (split; [count_calls | count_sleep Hlen]).
  - pose proof (poll_end_count_has_ret _ _ _ _ _ Hend) as Hr. subst r.
    unfold bind at 1, wait_for_transaction_receipt, remote.
    destruct (eth_wait_for_transaction_receipt read_web3 h 120 20 (world s'))
      as [[e | rc] w3].
    + destruct (is_Exception e); unfold bind, ret;
        eexists _, _; (split; [reflexivity |]); cbn [snd trace];
        rewrite Htr, <- ?app_assoc; (split; [reflexivity |]);
        (split; [count_calls | count_sleep Hlen]).
    + unfold bind, ret;
        eexists _, _; (split; [reflexivity |]); cbn [snd trace];
        rewrite Htr, <- ?app_assoc; (split; [reflexivity |]);
        (split; [count_calls | count_sleep Hlen]).
Qed.

End BudgetFacts.

(** X6.  One run of [send_raw_transaction] makes at most 13 remote calls
    (the baseline read, the broadcast, ten reads of the poll and the
    wait for the receipt) and sleeps at most 77.5 seconds between them,
    whatever the remote side answers. *)
Theorem send_raw_transaction_is_bounded {World : Type}
    (elapse : Q -> World -> World) (write_web3 read_web3 : web3 World)
    (transaction : SignedTransaction) (worker_address : string)
    (s : state World) :
  exists events : list event,
    trace (snd (send_raw_transaction elapse transaction write_web3 read_web3
                  worker_address s)) = (trace s ++ events)%list
    /\ List.length (remote_calls_of events) <= 13
    /\ (slept events <= 155 # 2)%Q.
Proof.
  destruct (send_raw_transaction_budget elapse write_web3 read_web3 transaction
              worker_address s) as (events & s' & <- & Htr & Hcalls & Hsleep).
  exists events. split_all; assumption.
Qed.

(** The bounds are reached on a remote side that never mines. *)
Example send_raw_transaction_budget_reached :
  let tr := trace (snd (send_raw_transaction Sim.elapse Sim.signed Sim.stuck
                          Sim.stuck Sim.worker Sim.start)) in
  List.length (remote_calls_of tr) = 13 /\ Qred (slept tr) = (155 # 2)%Q.
Proof. vm_compute. split; reflexivity. Qed.

(** ** faucet, further *)

Lemma poll_events_snoc (address : string) (earlier : list (exn + Z))
    (last : exn + Z) :
  forall i : nat,
    poll_events address i (earlier ++ [last])
    = (poll_events address i earlier
       ++ [EvLog DEBUG "Waiting {sleep_time} seconds for faucet transaction confirmation";
           EvSleep (inject_Z (Z.of_nat (i + List.length earlier)) * (3 # 2) + 1)]
       ++ [EvGetTransactionCount address last])%list.
Proof.
  induction earlier as [| a rest IH]; intros i.
  - cbn. now rewrite Nat.add_0_r.
  - cbn [app poll_events List.length]. rewrite IH.
    now rewrite Nat.add_succ_r.
Qed.

Lemma first_failure_poll_quiet (address : string) (baseline : Z)
    (earlier : list (exn + Z)) :
  Forall (not_incremented baseline) earlier ->
  forall i : nat, first_failure (poll_events address i earlier) = None.
Proof.
  induction 1 as [| a earlier (c & -> & _) _ IH]; intros i; [reflexivity |].
  cbn [poll_events first_failure event_failure]. apply IH.
Qed.

Section FaucetFailureFacts.

Context {World : Type}.
Variable elapse : Q -> World -> World.
Variable is_address : string -> bool.
Variables write_web3 read_web3 : web3 World.

Lemma faucet_run (__balance__ : Z) (selected_faucet : Z * string)
    (worker_address : string) (s : state World) :
  is_address worker_address = true ->
  exists (events : list event) (r : outcome unit) (s' : state World),
    faucet elapse is_address __balance__ write_web3 read_web3 selected_faucet
      worker_address s = (r, s')
    /\ trace s' = (trace s ++ events)%list
    /\ gas_cache s' = gas_cache s
    /\ List.length (broadcasts_of events) <= 1
    /\ match account_from_key read_web3 (snd selected_faucet) with
       | inl e =>
           r = Raise e
           /\ events
              = [EvLog INFO "Faucet with '{selected_faucet} and {worker_address}"]
       | inr faucet_address =>
           match first_failure events with
           | Some e =>
               r = Raise e
               /\ exists (before : list event) (ev : event),
                    events = (before ++ [ev])%list
                    /\ event_failure ev = Some e
                    /\ first_failure before = None
           | None =>
               exists (b : Z) (rest : list event),
                 events
                 = EvLog INFO "Faucet with '{selected_faucet} and {worker_address}"
                   :: EvGetTransactionCount faucet_address (inr b) :: rest
                 /\ match account_sign_transaction read_web3
                            (faucet_transaction b worker_address)
                            (snd selected_faucet) with
                    | inl e => r = Raise e /\ rest = []
                    | inr signed =>
                        r = Ret tt
                        /\ exists (h : string) (rest' : list event),
                             rest = EvSendRawTransaction
                                      (rawTransaction signed) (inr h) :: rest'
                    end
           end
       end.
Proof.
  intros Hok. unfold faucet. rewrite Hok. cbn [negb].
  unfold bind at 1, ret. unfold bind at 1, logging.
  unfold bind at 1, lift_result.
  destruct (account_from_key read_web3 (snd selected_faucet))
    as [e | faucet_address].
  { exists [EvLog INFO "Faucet with '{selected_faucet} and {worker_address}"].
    do 2 eexists. split; [reflexivity |]. cbn [trace gas_cache].
    split_all; try reflexivity. cbn. lia. }
  unfold bind at 1, get_transaction_count, remote. cbn [world gas_cache trace].
  destruct (eth_get_transaction_count read_web3 faucet_address (world s))
    as [[e | b] w1].
  { exists [EvLog INFO "Faucet with '{selected_faucet} and {worker_address}";
            EvGetTransactionCount faucet_address (inl e)].
    do 2 eexists. split; [reflexivity |].
    cbn [trace gas_cache first_failure event_failure].
    rewrite <- !app_assoc. split_all; try reflexivity; try (cbn; lia).
    exists [EvLog INFO "Faucet with '{selected_faucet} and {worker_address}"],
      (EvGetTransactionCount faucet_address (inl e)).
    split_all; reflexivity. }
  cbv beta iota zeta.
  unfold bind at 1.
  destruct (account_sign_transaction read_web3
              (faucet_transaction b worker_address) (snd selected_faucet))
    as [e | signed] eqn:Hsign.
  { exists [EvLog INFO "Faucet with '{selected_faucet} and {worker_address}";
            EvGetTransactionCount faucet_address (inr b)].
    do 2 eexists. split; [reflexivity |].
    cbn [trace gas_cache first_failure event_failure].
    rewrite <- !app_assoc. split; [reflexivity |]. split; [reflexivity |].
    split; [cbn; lia |].
    exists b, []. rewrite Hsign. split_all; reflexivity. }
  unfold bind at 1, send_raw, remote. cbn [world gas_cache trace].
  destruct (eth_send_raw_transaction write_web3 (rawTransaction signed) w1)
    as [[e | h] w2].
  { exists [EvLog INFO "Faucet with '{selected_faucet} and {worker_address}";
            EvGetTransactionCount faucet_address (inr b);
            EvSendRawTransaction (rawTransaction signed) (inl e)].
    do 2 eexists. split; [reflexivity |].
    cbn [trace gas_cache first_failure event_failure].
    rewrite <- !app_assoc. split_all; try reflexivity; try (cbn; lia).
    exists [EvLog INFO "Faucet with '{selected_faucet} and {worker_address}";
            EvGetTransactionCount faucet_address (inr b)],
      (EvSendRawTransaction (rawTransaction signed) (inl e)).
    split_all; reflexivity. }
  cbv beta iota zeta.
  unfold bind at 1, asyncio_sleep. cbn [world gas_cache trace].
  unfold bind at 1. cbn [world gas_cache trace].
  unfold bind at 1.
  match goal with
  | |- context [nonce_poll _ _ _ _ _ ?s1] =>
      destruct (nonce_poll_rounds elapse read_web3 faucet_address b 10 0 s1
                  ltac:(lia))
        as (earlier & last & r & s' & Hrun & Htr & Hgc & Hlen & Hall & Hend)
  end.
  cbn [trace gas_cache] in Htr, Hgc. rewrite Hrun.
  set (tail := [EvSleep 3;
                EvLog INFO "Waiting for transaction confirmation"]).
  set (start := EvLog INFO "Faucet with '{selected_faucet} and {worker_address}"
                :: EvGetTransactionCount faucet_address (inr b)
                :: EvSendRawTransaction (rawTransaction signed) (inr h)
                :: tail).
  assert (Hstart : first_failure start = None) by reflexivity.
  assert (Hone : broadcasts_of start
                 = [EvSendRawTransaction (rawTransaction signed) (inr h)])
    by reflexivity.
  assert (Htr' : trace s'
                 = (trace s ++ start
                    ++ poll_events faucet_address 0 (earlier ++ [last]))%list).
  { rewrite Htr, <- !app_assoc. reflexivity. }
  clear Htr.
  destruct last as [e | c].
  - pose proof (poll_end_failure_raises _ _ _ _ _ Hend) as Hr. subst r.
    exists (start ++ poll_events faucet_address 0 (earlier ++ [inl e]))%list.
    do 2 eexists. split; [reflexivity |].
    split; [exact Htr' |]. split; [exact Hgc |].
    split.
    { rewrite broadcasts_of_app, Hone, broadcasts_of_poll_events. cbn. lia. }
    rewrite first_failure_app, Hstart,
      (first_failure_poll_events faucet_address b earlier (inl e) Hall).
    split; [reflexivity |].
    rewrite poll_events_snoc, !app_assoc.
    do 2 eexists. split; [reflexivity |]. split; [reflexivity |].
    rewrite !first_failure_app, Hstart,
      (first_failure_poll_quiet faucet_address b earlier Hall).
    reflexivity.
  - pose proof (poll_end_count_has_ret _ _ _ _ _ Hend) as Hr. subst r.
    unfold bind at 1, wait_for_transaction_receipt, remote.
    destruct (eth_wait_for_transaction_receipt read_web3 h 120 20 (world s'))
      as [[e | rc] w3].
    + exists (start ++ poll_events faucet_address 0 (earlier ++ [inr c])
              ++ [EvWaitForReceipt h 120 20 (inl e)])%list.
      do 2 eexists. split; [reflexivity |]. cbn [trace gas_cache].
      split; [rewrite Htr', <- !app_assoc; reflexivity |].
      split; [exact Hgc |].
      split.
      { rewrite !broadcasts_of_app, Hone, broadcasts_of_poll_events. cbn. lia. }
      rewrite !first_failure_app, Hstart,
        (first_failure_poll_events faucet_address b earlier (inr c) Hall).
      cbn [first_failure event_failure].
      split; [reflexivity |]. rewrite !app_assoc.
      do 2 eexists. split; [reflexivity |]. split; [reflexivity |].
      rewrite !first_failure_app, Hstart,
        (first_failure_poll_events faucet_address b earlier (inr c) Hall).
      reflexivity.
    + exists (start ++ poll_events faucet_address 0 (earlier ++ [inr c])
              ++ [EvWaitForReceipt h 120 20 (inr rc);
                  EvLog INFO "SFUEL funding transaction {transaction_receipt.transactionHash.hex()}"])%list.
      do 2 eexists. split; [reflexivity |]. unfold logging. cbn [trace gas_cache].
      split; [rewrite Htr', <- !app_assoc; reflexivity |].
      split; [exact Hgc |].
      split.
      { rewrite !broadcasts_of_app, Hone, broadcasts_of_poll_events. cbn. lia. }
      rewrite !first_failure_app, Hstart,
        (first_failure_poll_events faucet_address b earlier (inr c) Hall).
      cbn [first_failure event_failure].
      exists b. eexists. split; [reflexivity |]. rewrite Hsign.
      split; [reflexivity |]. eexists _, _. reflexivity.
Qed.

End FaucetFailureFacts.

(** X7.  With a valid address [faucet] has no handler, and whatever
    fails first ends it.  When the key is refused it raises before any
    remote call.  Otherwise it raises the exception of the first remote
    call that failed, which is then the last thing it did (no log
    record, sleep or call follows); and when no remote call failed, the
    count was read and either the signing of the transfer raised, so
    that [faucet] raises with nothing broadcast, or the transfer was
    broadcast and [faucet] returns normally.  It broadcasts at most
    once and leaves the gas cache alone. *)
Theorem faucet_raises_first_failure {World : Type}
    (elapse : Q -> World -> World) (is_address : string -> bool)
    (__balance__ : Z) (write_web3 read_web3 : web3 World)
    (selected_faucet : Z * string) (worker_address : string)
    (s : state World) :
  is_address worker_address = true ->
  exists (events : list event) (r : outcome unit) (s' : state World),
    faucet elapse is_address __balance__ write_web3 read_web3 selected_faucet
      worker_address s = (r, s')
    /\ trace s' = (trace s ++ events)%list
    /\ gas_cache s' = gas_cache s
    /\ List.length (broadcasts_of events) <= 1
    /\ match account_from_key read_web3 (snd selected_faucet) with
       | inl e =>
           r = Raise e
           /\ events
              = [EvLog INFO "Faucet with '{selected_faucet} and {worker_address}"]
       | inr faucet_address =>
           match first_failure events with
           | Some e =>
               r = Raise e
               /\ exists (before : list event) (ev : event),
                    events = (before ++ [ev])%list
                    /\ event_failure ev = Some e
                    /\ first_failure before = None
           | None =>
               exists (b : Z) (rest : list event),
                 events
                 = EvLog INFO "Faucet with '{selected_faucet} and {worker_address}"
                   :: EvGetTransactionCount faucet_address (inr b) :: rest
                 /\ match account_sign_transaction read_web3
                            (faucet_transaction b worker_address)
                            (snd selected_faucet) with
                    | inl e => r = Raise e /\ rest = []
                    | inr signed =>
                        r = Ret tt
                        /\ exists (h : string) (rest' : list event),
                             rest = EvSendRawTransaction
                                      (rawTransaction signed) (inr h) :: rest'
                    end
           end
       end.
Proof.
  intros Hok.
  exact (faucet_run elapse is_address write_web3 read_web3 __balance__
           selected_faucet worker_address s Hok).
Qed.

Lemma faucet_raises_first_failure_witness :
  Sim.is_address Lab.lower_case_worker = true
  /\ exists (events : list event) (r : outcome unit)
            (s' : state Sim.remote_calls),
       faucet Sim.elapse Sim.is_address 0 Lab.strict Lab.strict
         (17%Z, private_key_base +:+ "0011") Lab.lower_case_worker Sim.start
       = (r, s')
       /\ trace s' = (trace Sim.start ++ events)%list
       /\ gas_cache s' = gas_cache Sim.start
       /\ List.length (broadcasts_of events) <= 1
       /\ match account_from_key Lab.strict
                  (snd (17%Z, private_key_base +:+ "0011")) with
          | inl e =>
              r = Raise e
              /\ events
                 = [EvLog INFO "Faucet with '{selected_faucet} and {worker_address}"]
          | inr faucet_address =>
              match first_failure events with
              | Some e =>
                  r = Raise e
                  /\ exists (before : list event) (ev : event),
                       events = (before ++ [ev])%list
                       /\ event_failure ev = Some e
                       /\ first_failure before = None
              | None =>
                  exists (b : Z) (rest : list event),
                    events
                    = EvLog INFO "Faucet with '{selected_faucet} and {worker_address}"
                      :: EvGetTransactionCount faucet_address (inr b) :: rest
                    /\ match account_sign_transaction Lab.strict
                               (faucet_transaction b Lab.lower_case_worker)
                               (snd (17%Z, private_key_base +:+ "0011")) with
                       | inl e => r = Raise e /\ rest = []
                       | inr signed =>
                           r = Ret tt
                           /\ exists (h : string) (rest' : list event),
                                rest = EvSendRawTransaction
                                         (rawTransaction signed) (inr h)
                                       :: rest'
                       end
              end
          end.
Proof.
  split; [reflexivity |].
  apply (faucet_raises_first_failure Sim.elapse Sim.is_address 0 Lab.strict
           Lab.strict (17%Z, private_key_base +:+ "0011")
           Lab.lower_case_worker Sim.start).
  reflexivity.
Defined.

(** A destination in lower case passes the format check and is refused
    by the signing: [faucet] raises after the count was read, and
    nothing is broadcast. *)
Example faucet_lower_case_address :
  let run := faucet Sim.elapse Sim.is_address 0 Lab.strict Lab.strict
               (17%Z, private_key_base +:+ "0011") Lab.lower_case_worker
               Sim.start in
  fst run = Raise (PyException "TypeError")
  /\ remote_calls_of (trace (snd run))
     = [EvGetTransactionCount ("0xfaucet" +:+ private_key_base +:+ "0011")
          (inr 5%Z)].
Proof. vm_compute. split; reflexivity. Qed.

(** The same rejected broadcast, in [faucet] and in
    [send_raw_transaction]: raised by the one, swallowed by the other. *)
Example rejected_broadcast_both_ways :
  fst (faucet Sim.elapse Sim.is_address 0 Sim.rejecting Sim.rejecting
         (17%Z, private_key_base +:+ "0011") Sim.worker Sim.start)
  = Raise (PyException "ValueError: insufficient funds")
  /\ fst (send_raw_transaction Sim.elapse Sim.signed Sim.rejecting
            Sim.rejecting Sim.worker Sim.start) = Ret no_result.
Proof. vm_compute. split; reflexivity. Qed.

(** ** nonce, further *)

(** X8.  Every call of [nonce] makes exactly one remote call, the read
    of the count, and leaves the cache alone.  It returns the count
    exactly when the read answered it, [None] exactly when the read
    failed with an [Exception], and raises only what is no
    [Exception]. *)
Theorem nonce_reads_once {World : Type} (read_web3 : web3 World)
    (worker_address : string) (s : state World) :
  exists (answer : exn + Z) (events : list event) (r : outcome (option Z))
         (s' : state World),
    nonce worker_address read_web3 s = (r, s')
    /\ eth_get_transaction_count read_web3 worker_address (world s)
       = (answer, world s')
    /\ trace s' = (trace s ++ events)%list
    /\ gas_cache s' = gas_cache s
    /\ remote_calls_of events = [EvGetTransactionCount worker_address answer]
    /\ (forall n : Z, r = Ret (Some n) <-> answer = inr n)
    /\ (r = Ret None <-> exists e, answer = inl e /\ is_Exception e = true)
    /\ (forall e : exn,
          r = Raise e <-> answer = inl e /\ is_Exception e = false).
Proof.
  unfold nonce, try_except, bind at 1, get_transaction_count, remote.
  destruct (eth_get_transaction_count read_web3 worker_address (world s))
    as [[e | n] w].
  - cbv beta iota zeta. destruct (is_Exception e) eqn:He.
    + exists (inl e),
        [EvGetTransactionCount worker_address (inl e);
         EvLog ERROR "Error getting nonce ({worker_address})"].
      eexists _, _. unfold bind, logging, ret. split; [reflexivity |].
      cbn [world trace gas_cache]. rewrite <- app_assoc.
      split_all; try reflexivity.
      * intros n. split; discriminate.
      * split; [eauto | reflexivity].
      * intros e'. split; [discriminate | intros [[= <-] He']; congruence].
    + exists (inl e), [EvGetTransactionCount worker_address (inl e)].
      eexists _, _. split; [reflexivity |]. cbn [world trace gas_cache].
      split_all; try reflexivity.
      * intros n. split; discriminate.
      * split; [discriminate | intros (e' & [= <-] & He'); congruence].
      * intros e'. split; [intros [= <-]; auto | intros [[= <-] _]; reflexivity].
  - exists (inr n), [EvGetTransactionCount worker_address (inr n)].
    eexists _, _. unfold ret. split; [reflexivity |].
    cbn [world trace gas_cache]. split_all; try reflexivity.
    + intros n'. split; [intros [= <-]; reflexivity | intros [= <-]; reflexivity].
    + split; [discriminate | intros (e' & [=] & _)].
    + intros e'. split; [discriminate | intros [[=] _]].
Qed.

(** ** rotate_gateways, further *)

(** X9.  A sequence never runs out and never leaves the list: whatever
    its counter and however many items are pulled, item [i] is the
    entry of the list at position (counter + i) mod N. *)
Theorem take_gateways_items (n : nat) (g : gateway_generator) (i : nat) :
  i < n ->
  fst (take_gateways n g) !! i
  = gateways !! ((counter g + i) mod List.length gateways)
  /\ is_Some (fst (take_gateways n g) !! i)
  /\ List.length (fst (take_gateways n g)) = n.
Proof.
  intros Hi.
  rewrite (proj1 (take_gateways_round_robin n g)).
  assert (Hin : (counter g + i) mod List.length gateways < List.length gateways)
    by (apply Nat.mod_upper_bound; discriminate).
  assert (Hitem : List.map (fun i => nth (i mod List.length gateways) gateways "")
                           (seq (counter g) n) !! i
                  = gateways !! ((counter g + i) mod List.length gateways)).
  { change (List.map ?f ?l) with (f <$> l).
    rewrite list_lookup_fmap, lookup_seq_lt by exact Hi. cbn [fmap option_fmap option_map].
    destruct (lookup_lt_is_Some_2 gateways _ Hin) as [url Hurl].
    rewrite Hurl. f_equal. now apply nth_lookup_Some with (d := "") in Hurl. }
  split_all.
  - exact Hitem.
  - rewrite Hitem. now apply lookup_lt_is_Some_2.
  - now rewrite List.length_map, List.length_seq.
Qed.

Lemma take_gateways_items_witness :
  23 < 40
  /\ fst (take_gateways 40 {| counter := 5 |}) !! 23
     = gateways !! ((counter {| counter := 5 |} + 23) mod List.length gateways)
  /\ is_Some (fst (take_gateways 40 {| counter := 5 |}) !! 23)
  /\ List.length (fst (take_gateways 40 {| counter := 5 |})) = 40.
Proof.
  split; [lia |].
  apply (take_gateways_items 40 {| counter := 5 |} 23). lia.
Defined.

(** X10.  Any N items in a row, from any state of the sequence, are the
    list rotated by counter mod N: every window of N pulls tries every
    entry of the list, each as often as the list holds it. *)
Theorem take_gateways_window (g : gateway_generator) :
  fst (take_gateways (List.length gateways) g)
  = (drop (counter g mod List.length gateways) gateways
     ++ take (counter g mod List.length gateways) gateways)%list
  /\ (forall url : string,
        count_occ string_dec (fst (take_gateways (List.length gateways) g)) url
        = count_occ string_dec gateways url).
Proof.
  assert (Hrot : fst (take_gateways (List.length gateways) g)
                 = (drop (counter g mod List.length gateways) gateways
                    ++ take (counter g mod List.length gateways) gateways)%list).
  { rewrite (proj1 (take_gateways_round_robin _ g)).
    rewrite <- (Nat.add_0_r (counter g)) at 1.
    rewrite <- (fmap_add_seq (counter g) 0).
    change (List.map ?f (?h <$> ?l)) with (f <$> (h <$> l)).
    rewrite <- list_fmap_compose.
    assert (Hk : counter g mod List.length gateways < 7)
      by (apply Nat.mod_upper_bound; discriminate).
    transitivity
      ((fun j => nth ((counter g mod List.length gateways + j)
                        mod List.length gateways) gateways "")
         <$> seq 0 (List.length gateways)).
    { apply list_fmap_ext. intros _ j _. unfold compose.
      now rewrite Nat.Div0.add_mod_idemp_l. }
    destruct (counter g mod List.length gateways) as [| k]; [reflexivity |].
    do 6 (destruct k as [| k]; [reflexivity |]). lia. }
  split; [exact Hrot |].
  intros url. rewrite Hrot, count_occ_app.
  pose proof (count_occ_app string_dec
                (take (counter g mod List.length gateways) gateways)
                (drop (counter g mod List.length gateways) gateways) url) as Hsum.
  rewrite take_drop in Hsum. lia.
Qed.

(** X11.  A consumer that stops and comes back goes on where it
    stopped: after [m] items have been pulled, item [i] of the next pull
    is the entry of the list at position (counter + m + i) mod N.  So
    after any whole number of rounds of N items the sequence starts
    over: the next pull gives what the first one gave. *)
Theorem take_gateways_after_pause (m n : nat) (g : gateway_generator) :
  (forall i : nat,
      i < n ->
      fst (take_gateways n (snd (take_gateways m g))) !! i
      = gateways !! ((counter g + m + i) mod List.length gateways))
  /\ (forall k : nat,
        m = k * List.length gateways ->
        fst (take_gateways n (snd (take_gateways m g)))
        = fst (take_gateways n g)).
Proof.
  pose proof (proj2 (take_gateways_round_robin m g)) as Hcount.
  split.
  - intros i Hi.
    rewrite (proj1 (take_gateways_round_robin n _)), Hcount.
    assert (Hin : (counter g + m + i) mod List.length gateways
                  < List.length gateways)
      by (apply Nat.mod_upper_bound; discriminate).
    change (List.map ?f ?l) with (f <$> l).
    rewrite list_lookup_fmap, lookup_seq_lt by exact Hi.
    cbn [fmap option_fmap option_map].
    destruct (lookup_lt_is_Some_2 gateways _ Hin) as [url Hurl].
    rewrite Hurl. f_equal. now apply nth_lookup_Some with (d := "") in Hurl.
  - intros k ->.
    rewrite !(proj1 (take_gateways_round_robin n _)), Hcount.
    rewrite (Nat.add_comm (counter g)).
    rewrite <- (fmap_add_seq (k * List.length gateways) (counter g)).
    change (List.map ?f (?h <$> ?l)) with (f <$> (h <$> l)).
    rewrite <- list_fmap_compose.
    apply list_fmap_ext. intros _ j _. unfold compose.
    now rewrite Nat.add_comm, Nat.Div0.mod_add.
Qed.

(** Five items, a pause, and the next four. *)
Example take_gateways_pause_run :
  fst (take_gateways 4 (snd (take_gateways 5 (rotate_gateways tt))))
  = ["https://ipfs.eth.aragon.network/ipfs/";
     "https://api.ipfsbrowser.com/ipfs/get.php?hash=";
     "http://ipfs-gateway.exorde.network/ipfs/";
     "http://ipfs-gateway.exorde.network/ipfs/"].
Proof. reflexivity. Qed.

(** ** The selector of a faucet, for every index *)

Lemma zeros_length (k : nat) : String.length (zeros k) = k.
Proof. induction k as [| k IH]; cbn; [reflexivity | now rewrite IH]. Qed.

Lemma uint_of_zeros (k : nat) (s : string) :
  NilEmpty.uint_of_string (zeros k +:+ s)
  = option_map (leading_zeros k) (NilEmpty.uint_of_string s).
Proof.
  induction k as [| k IH].
  - change (zeros 0 +:+ s) with s. now destruct (NilEmpty.uint_of_string s).
  - change (zeros (S k) +:+ s) with (String "0" (zeros k +:+ s)).
    cbn [NilEmpty.uint_of_string]. rewrite IH.
    now destruct (NilEmpty.uint_of_string s).
Qed.

Lemma of_hex_leading_zeros (k : nat) (u : Hexadecimal.uint) :
  N.of_hex_uint (leading_zeros k u) = N.of_hex_uint u.
Proof. induction k as [| k IH]; [reflexivity | exact IH]. Qed.

Lemma hex_of_N_parses (n : N) :
  hex_of_N n <> ""
  /\ exists u : Hexadecimal.uint,
       NilEmpty.uint_of_string (hex_of_N n) = Some u /\ N.of_hex_uint u = n.
Proof.
  unfold hex_of_N.
  pose proof (HexadecimalN.Unsigned.of_to n) as Hn.
  destruct (N.to_hex_uint n) as [| d | d | d | d | d | d | d | d | d | d | d | d
                                | d | d | d | d] eqn:Hd;
    (split; [discriminate |]);
    try (eexists; split; [apply (NilEmpty.usu (_ d)) | exact Hn]).
  exists (Hexadecimal.D0 Hexadecimal.Nil). split; [reflexivity | exact Hn].
Qed.

Lemma format_04x_nonneg (i : Z) :
  (0 <= i)%Z ->
  format_04x i
  = zeros (4 - String.length (hex_of_N (Z.abs_N i))) +:+ hex_of_N (Z.abs_N i).
Proof.
  intros Hi. unfold format_04x.
  now rewrite (proj2 (Z.ltb_ge i 0) Hi).
Qed.

(** X12.  The selector loses nothing: for every index that is not
    negative, ["%0.4x" % i] has at least four characters, all of them
    hexadecimal digits that read back as [i]. *)
Theorem format_04x_round_trip (i : Z) :
  (0 <= i)%Z ->
  hex_value (format_04x i) = Some i
  /\ 4 <= String.length (format_04x i).
Proof.
  intros Hi. rewrite (format_04x_nonneg i Hi).
  destruct (hex_of_N_parses (Z.abs_N i)) as (Hne & u & Hparse & Hval).
  split.
  - unfold hex_value, NilZero.uint_of_string.
    destruct (zeros (4 - String.length (hex_of_N (Z.abs_N i)))
              +:+ hex_of_N (Z.abs_N i)) as [| c rest] eqn:Hs.
    + exfalso. apply Hne.
      destruct (zeros (4 - String.length (hex_of_N (Z.abs_N i))));
        [exact Hs | discriminate Hs].
    + rewrite <- Hs, uint_of_zeros, Hparse. cbn [option_map].
      rewrite of_hex_leading_zeros, Hval, N2Z.inj_abs_N.
      f_equal. lia.
  - rewrite string_length_append, zeros_length. lia.
Qed.

Lemma format_04x_round_trip_witness :
  (0 <= 70000)%Z
  /\ hex_value (format_04x 70000) = Some 70000%Z
  /\ 4 <= String.length (format_04x 70000).
Proof.
  split; [lia |]. apply (format_04x_round_trip 70000). lia.
Defined.

Lemma string_append_inj (a b c : string) : a +:+ b = a +:+ c -> b = c.
Proof.
  induction a as [| ch a IH]; simpl; [auto |].
  intros [= H]. auto.
Qed.

Lemma substring_whole (b : string) : String.substring 0 (String.length b) b = b.
Proof.
  induction b as [| c b IH]; [reflexivity |].
  change (String c (String.substring 0 (String.length b) b) = String c b).
  now rewrite IH.
Qed.

Lemma substring_after_prefix (a b : string) :
  String.substring (String.length a) (String.length b) (a +:+ b) = b.
Proof.
  induction a as [| c a IH]; [apply substring_whole | exact IH].
Qed.

(** X13.  Two selections give the same private key only when they drew
    the same index: the keys of the pool are pairwise distinct, and the
    index can be read back from the key. *)
Theorem select_random_faucet_keys_distinct {Rng : Type}
    (randrange : Z -> Z -> Z -> Rng -> Z * Rng) (rng1 rng2 : Rng) :
  (0 <= fst (fst (select_random_faucet randrange rng1)))%Z ->
  (0 <= fst (fst (select_random_faucet randrange rng2)))%Z ->
  (snd (fst (select_random_faucet randrange rng1))
   = snd (fst (select_random_faucet randrange rng2))
   <-> fst (fst (select_random_faucet randrange rng1))
       = fst (fst (select_random_faucet randrange rng2)))
  /\ hex_value
       (String.substring (String.length private_key_base)
          (String.length (snd (fst (select_random_faucet randrange rng1)))
           - String.length private_key_base)
          (snd (fst (select_random_faucet randrange rng1))))
     = Some (fst (fst (select_random_faucet randrange rng1))).
Proof.
  unfold select_random_faucet.
  destruct (randrange 0%Z (499 + 1)%Z 1%Z rng1) as [i rng1'].
  destruct (randrange 0%Z (499 + 1)%Z 1%Z rng2) as [j rng2'].
  cbn [fst snd]. intros Hi Hj. split.
  - split.
    + intros Hkey. apply string_append_inj in Hkey.
      pose proof (proj1 (format_04x_round_trip i Hi)) as Hri.
      pose proof (proj1 (format_04x_round_trip j Hj)) as Hrj.
      rewrite Hkey in Hri. congruence.
    + now intros ->.
  - rewrite string_length_append.
    replace (String.length private_key_base + String.length (format_04x i)
             - String.length private_key_base)
      with (String.length (format_04x i)) by lia.
    rewrite substring_after_prefix.
    exact (proj1 (format_04x_round_trip i Hi)).
Qed.

Lemma select_random_faucet_keys_distinct_witness :
  (0 <= fst (fst (select_random_faucet Sim.randrange 20230417%Z)))%Z
  /\ (0 <= fst (fst (select_random_faucet Sim.randrange 7%Z)))%Z
  /\ (snd (fst (select_random_faucet Sim.randrange 20230417%Z))
      = snd (fst (select_random_faucet Sim.randrange 7%Z))
      <-> fst (fst (select_random_faucet Sim.randrange 20230417%Z))
          = fst (fst (select_random_faucet Sim.randrange 7%Z)))
  /\ hex_value
       (String.substring (String.length private_key_base)
          (String.length
             (snd (fst (select_random_faucet Sim.randrange 20230417%Z)))
           - String.length private_key_base)
          (snd (fst (select_random_faucet Sim.randrange 20230417%Z))))
     = Some (fst (fst (select_random_faucet Sim.randrange 20230417%Z))).
Proof.
  split; [vm_compute; discriminate | split; [vm_compute; discriminate |]].
  apply (select_random_faucet_keys_distinct Sim.randrange 20230417%Z 7%Z);
    vm_compute; discriminate.
Defined.

(** ** get_balance *)

(** X14.  [get_balance] never raises an [Exception]: when the read of
    the balance fails with one, the exception is logged and the answer
    is 0, the balance of an empty account; a balance that was read is
    returned as it is, with nothing logged. *)
Theorem get_balance_defaults_to_zero {World : Type}
    (eth_get_balance : string -> M World Z) (worker_address : string)
    (s : state World) :
  (forall (e : exn) (s1 : state World),
      eth_get_balance worker_address s = (Raise e, s1) ->
      is_Exception e = true ->
      get_balance eth_get_balance worker_address s
      = (Ret 0%Z,
         {| world := world s1; gas_cache := gas_cache s1;
            trace := trace s1 ++ [EvLog ERROR "{e}"] |}))
  /\ (forall (v : Z) (s1 : state World),
        eth_get_balance worker_address s = (Ret v, s1) ->
        get_balance eth_get_balance worker_address s = (Ret v, s1))
  /\ (forall e : exn,
        fst (get_balance eth_get_balance worker_address s) = Raise e ->
        is_Exception e = false).
Proof.
  unfold get_balance, try_except.
  destruct (eth_get_balance worker_address s) as [[v | e | c] s1].
  - split_all; [discriminate | intros v' s1' [= <- <-]; reflexivity
               | discriminate].
  - split_all.
    + intros e' s1' [= <- <-] He. rewrite He. reflexivity.
    + discriminate.
    + destruct (is_Exception e) eqn:He; [discriminate |].
      intros e' [= <-]. exact He.
  - split_all; discriminate.
Qed.

(** A node that is down looks like an empty account. *)
Example get_balance_down :
  fst (get_balance Lab.balance_down Sim.worker Sim.start) = Ret 0%Z
  /\ fst (get_balance Lab.balance_up Sim.worker Sim.start) = Ret 750000%Z.
Proof. split; reflexivity. Qed.

(** ** The funding transaction *)

(** X15.  With a valid address and a key that is taken, once the count
    [b] of the faucet account has been read, [faucet] signs with the
    selected key the transfer to the worker with nonce [b], value
    500,000,000,000,000, gas price 500,000 and the fixed gas 100,000.
    When the signing succeeds, the next remote call is the broadcast of
    what was signed.  When the signing raises, [faucet] raises that
    exception and nothing is broadcast. *)
Theorem faucet_sends_signed_transfer {World : Type}
    (elapse : Q -> World -> World) (is_address : string -> bool)
    (__balance__ : Z) (write_web3 read_web3 : web3 World)
    (selected_faucet : Z * string) (worker_address : string)
    (s : state World) (faucet_address : string) (b : Z) (w1 : World) :
  is_address worker_address = true ->
  account_from_key read_web3 (snd selected_faucet) = inr faucet_address ->
  eth_get_transaction_count read_web3 faucet_address (world s) = (inr b, w1) ->
  match account_sign_transaction read_web3
          {| tx_from := None; tx_to := Some worker_address;
             tx_nonce := b; tx_gasPrice := 500000;
             tx_gas := Some (PyInt 100000);
             tx_value := 500000000000000;
             tx_data := "b'Hi Exorde!'" |}
          (snd selected_faucet) with
  | inr signed =>
      exists (answer : exn + string) (w2 : World) (rest : list event),
        eth_send_raw_transaction write_web3 (rawTransaction signed) w1
        = (answer, w2)
        /\ trace (snd (faucet elapse is_address __balance__ write_web3
                         read_web3 selected_faucet worker_address s))
           = (trace s
              ++ EvLog INFO "Faucet with '{selected_faucet} and {worker_address}"
              :: EvGetTransactionCount faucet_address (inr b)
              :: EvSendRawTransaction (rawTransaction signed) answer
              :: rest)%list
  | inl e =>
      faucet elapse is_address __balance__ write_web3 read_web3
        selected_faucet worker_address s
      = (Raise e,
         {| world := w1; gas_cache := gas_cache s;
            trace := trace s
                     ++ [EvLog INFO "Faucet with '{selected_faucet} and {worker_address}";
                         EvGetTransactionCount faucet_address (inr b)] |})
  end.
Proof.
  intros Hok Hkey Hget.
  change {| tx_from := None; tx_to := Some worker_address;
            tx_nonce := b; tx_gasPrice := 500000;
            tx_gas := Some (PyInt 100000);
            tx_value := 500000000000000;
            tx_data := "b'Hi Exorde!'" |}
    with (faucet_transaction b worker_address).
  destruct (account_sign_transaction read_web3
              (faucet_transaction b worker_address) (snd selected_faucet))
    as [e | signed] eqn:Hsign.
  - unfold faucet. rewrite Hok. cbn [negb].
    unfold bind at 1, ret. unfold bind at 1, logging.
    unfold bind at 1, lift_result. rewrite Hkey.
    unfold bind at 1, get_transaction_count, remote. cbn [world gas_cache trace].
    rewrite Hget. cbv beta iota zeta.
    unfold bind at 1. rewrite Hsign. now rewrite <- !app_assoc.
  - destruct (eth_send_raw_transaction write_web3 (rawTransaction signed) w1)
      as [[e | h] w2] eqn:Hsend.
    + exists (inl e), w2, []. split; [reflexivity |].
      unfold faucet. rewrite Hok. cbn [negb].
      unfold bind at 1, ret. unfold bind at 1, logging.
      unfold bind at 1, lift_result. rewrite Hkey.
      unfold bind at 1, get_transaction_count, remote.
      cbn [world gas_cache trace].
      rewrite Hget. cbv beta iota zeta.
      unfold bind at 1. rewrite Hsign.
      unfold bind at 1, send_raw, remote. cbn [world gas_cache trace].
      rewrite Hsend. cbn [snd trace]. rewrite <- !app_assoc. reflexivity.
    + destruct (faucet_wait elapse is_address write_web3 read_web3 __balance__
                  selected_faucet worker_address s faucet_address signed b h
                  w1 w2 Hok Hkey Hget Hsign Hsend) as (events & Htr & _).
      exists (inr h), w2. eexists. split; [reflexivity |].
      rewrite Htr. reflexivity.
Qed.

Lemma faucet_sends_signed_transfer_witness :
  Sim.is_address Sim.worker = true
  /\ account_from_key Lab.strict (snd (17%Z, private_key_base +:+ "0011"))
     = inr ("0xfaucet" +:+ private_key_base +:+ "0011")
  /\ eth_get_transaction_count Lab.strict
       ("0xfaucet" +:+ private_key_base +:+ "0011") (world Sim.start)
     = (inr 5%Z, 1)
  /\ match account_sign_transaction Lab.strict
             {| tx_from := None; tx_to := Some Sim.worker;
                tx_nonce := 5; tx_gasPrice := 500000;
                tx_gas := Some (PyInt 100000);
                tx_value := 500000000000000;
                tx_data := "b'Hi Exorde!'" |}
             (snd (17%Z, private_key_base +:+ "0011")) with
     | inr signed =>
         exists (answer : exn + string) (w2 : Sim.remote_calls)
                (rest : list event),
           eth_send_raw_transaction Lab.strict (rawTransaction signed) 1
           = (answer, w2)
           /\ trace (snd (faucet Sim.elapse Sim.is_address 0 Lab.strict
                            Lab.strict (17%Z, private_key_base +:+ "0011")
                            Sim.worker Sim.start))
              = (trace Sim.start
                 ++ EvLog INFO "Faucet with '{selected_faucet} and {worker_address}"
                 :: EvGetTransactionCount
                      ("0xfaucet" +:+ private_key_base +:+ "0011") (inr 5%Z)
                 :: EvSendRawTransaction (rawTransaction signed) answer
                 :: rest)%list
     | inl e =>
         faucet Sim.elapse Sim.is_address 0 Lab.strict Lab.strict
           (17%Z, private_key_base +:+ "0011") Sim.worker Sim.start
         = (Raise e,
            {| world := 1; gas_cache := gas_cache Sim.start;
               trace := trace Sim.start
                        ++ [EvLog INFO "Faucet with '{selected_faucet} and {worker_address}";
                            EvGetTransactionCount
                              ("0xfaucet" +:+ private_key_base +:+ "0011")
                              (inr 5%Z)] |})
     end.
Proof.
  split; [reflexivity | split; [reflexivity | split; [reflexivity |]]].
  apply (faucet_sends_signed_transfer Sim.elapse Sim.is_address 0 Lab.strict
           Lab.strict (17%Z, private_key_base +:+ "0011") Sim.worker Sim.start
           ("0xfaucet" +:+ private_key_base +:+ "0011") 5%Z 1); reflexivity.
Defined.

(** ** contract and contracts *)

Section ContractFacts.

Context {World Contract : Type}.
Variable eth_contract : string -> string -> exn + Contract.
Variable abi_cnf : gmap string (gmap string string).
Variable contracts_cnf : gmap string (list (string * string)).
Variable configuration : gmap string string.

Lemma contract_run (name : string) (s : state World) :
  (exists c : Contract,
      contract eth_contract abi_cnf contracts_cnf configuration name s
      = (Ret (Some c), s)
      /\ configured eth_contract abi_cnf contracts_cnf configuration name c)
  \/ (contract eth_contract abi_cnf contracts_cnf configuration name s
      = (Ret None, skipped s)
      /\ forall c : Contract,
           ~ configured eth_contract abi_cnf contracts_cnf configuration
               name c).
Proof.
  unfold contract, try_except_all, bind, lift_result, dict_getitem, ret,
    logging, skipped, configured.
  destruct (configuration !! "target") as [by_target |] eqn:H1;
    [| right; split; [reflexivity |];
       intros c (? & ? & ? & ? & ? & ? & _); congruence].
  destruct (contracts_cnf !! by_target) as [addresses |] eqn:H2;
    [| right; split; [reflexivity |];
       intros c (? & ? & ? & ? & ? & ? & ? & _); congruence].
  destruct (items_getitem addresses name) as [e | address] eqn:H3;
    [right; split; [reflexivity |];
     intros c (? & ? & ? & ? & ? & ? & ? & ? & _); congruence |].
  destruct (abi_cnf !! name) as [abi_file |] eqn:H4;
    [| right; split; [reflexivity |];
       intros c (? & ? & ? & ? & ? & ? & ? & ? & ? & _); congruence].
  destruct (abi_file !! "abi") as [abi |] eqn:H5;
    [| right; split; [reflexivity |];
       intros c (? & ? & ? & ? & ? & ? & ? & ? & ? & ? & _); congruence].
  destruct (eth_contract address abi) as [e | c] eqn:H6.
  - right. split; [reflexivity |].
    intros c (? & ? & ? & ? & ? & ? & ? & ? & ? & ? & ?). congruence.
  - left. exists c. split; [reflexivity |].
    exists by_target, addresses, address, abi_file, abi.
    split_all; first [reflexivity | assumption].
Qed.

End ContractFacts.

(** X16.  [contract] never raises and never leaves the process: its
    bare [except] takes every exception.  It returns the contract object
    exactly when the target, the address of the name under that target,
    the ABI file of the name and its "abi" entry are all there and the
    constructor accepts them, and then it logs nothing; in every other
    case it returns [None] after one debug record. *)
Theorem contract_never_raises {World Contract : Type}
    (eth_contract : string -> string -> exn + Contract)
    (abi_cnf : gmap string (gmap string string))
    (contracts_cnf : gmap string (list (string * string)))
    (configuration : gmap string string) (name : string) (s : state World) :
  exists (r : option Contract) (s' : state World),
    contract eth_contract abi_cnf contracts_cnf configuration name s
    = (Ret r, s')
    /\ world s' = world s
    /\ (forall c : Contract,
          r = Some c
          <-> configured eth_contract abi_cnf contracts_cnf configuration name c)
    /\ trace s'
       = (trace s
          ++ match r with
             | Some _ => []
             | None => [EvLog DEBUG "Skipped contract instanciation for %s"]
             end)%list.
Proof.
  destruct (contract_run eth_contract abi_cnf contracts_cnf configuration name s)
    as [(c & Hrun & Hconf) | [Hrun Hnone]].
  - exists (Some c), s. split_all; [exact Hrun | reflexivity | | now rewrite app_nil_r].
    intros c'. split; [now intros [= <-] |].
    intros (t1 & a1 & ad1 & f1 & ab1 & G1 & G2 & G3 & G4 & G5 & G6).
    destruct Hconf as (t2 & a2 & ad2 & f2 & ab2 & K1 & K2 & K3 & K4 & K5 & K6).
    congruence.
  - exists None, (skipped s). split_all; [exact Hrun | reflexivity | | reflexivity].
    intros c. split; [discriminate | intros Hc; destruct (Hnone c Hc)].
Qed.

Section ContractsFacts.

Context {World Contract : Type}.
Variable eth_contract : string -> string -> exn + Contract.
Variable abi_cnf : gmap string (gmap string string).
Variable contracts_cnf : gmap string (list (string * string)).
Variable configuration : gmap string string.

Lemma contracts_of_run (names : list string) :
  forall s : state World,
    exists (result : list (string * option Contract)) (s' : state World),
      contracts_of eth_contract abi_cnf contracts_cnf configuration names s
      = (Ret result, s')
      /\ List.map fst result = names
      /\ world s' = world s
      /\ (forall (name : string) (c : Contract),
            List.In (name, Some c) result ->
            configured eth_contract abi_cnf contracts_cnf configuration name c)
      /\ (forall name : string,
            List.In (name, None) result ->
            forall c : Contract,
              ~ configured eth_contract abi_cnf contracts_cnf configuration
                  name c)
      /\ trace s'
         = (trace s
            ++ List.repeat (EvLog DEBUG "Skipped contract instanciation for %s")
                 (List.length (skipped_entries result)))%list.
Proof.
  induction names as [| name rest IH]; intros s.
  - exists [], s. cbn. unfold ret.
    split_all; try reflexivity; try (intros; contradiction).
    now rewrite app_nil_r.
  - cbn [contracts_of]. unfold bind at 1.
    destruct (contract_run eth_contract abi_cnf contracts_cnf configuration
                name s) as [(c & Hrun & Hconf) | [Hrun Hnone]]; rewrite Hrun.
    + destruct (IH s) as (result & s' & Hrest & Hnames & Hw & Hsome & Hno & Htr).
      unfold bind at 1. rewrite Hrest. unfold ret.
      exists ((name, Some c) :: result), s'.
      split_all; try reflexivity; try assumption.
      * cbn. now rewrite Hnames.
      * intros n c' [[= <- <-] | Hin]; [exact Hconf | eauto].
      * intros n [[=] | Hin]; eauto.
    + destruct (IH (skipped s))
        as (result & s' & Hrest & Hnames & Hw & Hsome & Hno & Htr).
      unfold bind at 1. rewrite Hrest. unfold ret.
      exists ((name, None) :: result), s'.
      split_all; try reflexivity; try assumption.
      * cbn. now rewrite Hnames.
      * intros n c' [[=] | Hin]; eauto.
      * intros n [[= <-] | Hin]; eauto.
      * rewrite Htr. cbn [skipped trace skipped_entries List.filter snd
                            List.length List.repeat].
        rewrite <- app_assoc. reflexivity.
Qed.

End ContractsFacts.

(** X17.  With the target configured, [contracts] returns one entry for
    every name under the target, in the order of the dict: a contract
    that cannot be built takes its entry as [None] and one debug record,
    and does not stop the others.  An entry holds a contract object
    exactly when address, ABI and constructor were there for its name.
    The remote world is not touched. *)
Theorem contracts_covers_every_name {World Contract : Type}
    (eth_contract : string -> string -> exn + Contract)
    (abi_cnf : gmap string (gmap string string))
    (contracts_cnf : gmap string (list (string * string)))
    (configuration : gmap string string)
    (by_target : string) (addresses : list (string * string))
    (s : state World) :
  configuration !! "target" = Some by_target ->
  contracts_cnf !! by_target = Some addresses ->
  exists (result : list (string * option Contract)) (s' : state World),
    contracts eth_contract abi_cnf contracts_cnf configuration s
    = (Ret result, s')
    /\ List.map fst result = List.map fst addresses
    /\ world s' = world s
    /\ (forall (name : string) (c : Contract),
          List.In (name, Some c) result ->
          configured eth_contract abi_cnf contracts_cnf configuration name c)
    /\ (forall name : string,
          List.In (name, None) result ->
          forall c : Contract,
            ~ configured eth_contract abi_cnf contracts_cnf configuration
                name c)
    /\ trace s'
       = (trace s
          ++ List.repeat (EvLog DEBUG "Skipped contract instanciation for %s")
               (List.length (skipped_entries result)))%list.
Proof.
  intros Htarget Haddresses.
  unfold contracts, bind at 1, lift_result, dict_getitem. rewrite Htarget.
  unfold bind at 1. rewrite Haddresses.
  exact (contracts_of_run eth_contract abi_cnf contracts_cnf configuration
           (List.map fst addresses) s).
Qed.

Lemma contracts_covers_every_name_witness :
  Lab.configuration !! "target" = Some "testnet"
  /\ Lab.contracts_cnf !! "testnet"
     = Some [("DataSpotting", "0xd5"); ("AddressManager", "0xa3")]
  /\ exists (result : list (string * option (string * string)))
            (s' : state Sim.remote_calls),
       contracts Lab.eth_contract Lab.abi_cnf Lab.contracts_cnf
         Lab.configuration Sim.start = (Ret result, s')
       /\ List.map fst result
          = List.map fst [("DataSpotting", "0xd5"); ("AddressManager", "0xa3")]
       /\ world s' = world Sim.start
       /\ (forall (name : string) (c : string * string),
             List.In (name, Some c) result ->
             configured Lab.eth_contract Lab.abi_cnf Lab.contracts_cnf
               Lab.configuration name c)
       /\ (forall name : string,
             List.In (name, None) result ->
             forall c : string * string,
               ~ configured Lab.eth_contract Lab.abi_cnf Lab.contracts_cnf
                   Lab.configuration name c)
       /\ trace s'
          = (trace Sim.start
             ++ List.repeat
                  (EvLog DEBUG "Skipped contract instanciation for %s")
                  (List.length (skipped_entries result)))%list.
Proof.
  split; [reflexivity | split; [reflexivity |]].
  apply (contracts_covers_every_name Lab.eth_contract Lab.abi_cnf
           Lab.contracts_cnf Lab.configuration "testnet"
           [("DataSpotting", "0xd5"); ("AddressManager", "0xa3")] Sim.start);
    reflexivity.
Defined.

(** The contract without an ABI is skipped, the other one is built. *)
Example contracts_run :
  fst (contracts Lab.eth_contract Lab.abi_cnf Lab.contracts_cnf
         Lab.configuration Sim.start)
  = Ret [("DataSpotting", Some ("0xd5", "[spot]")); ("AddressManager", None)].
Proof. vm_compute. reflexivity. Qed.

(** X18.  A target that is not configured is an error in [contracts]
    and a skip in [contract]: the lookup of the names is outside every
    handler, so [contracts] raises the [KeyError] with nothing logged,
    where [contract] for any single name logs and returns [None]. *)
Theorem contracts_needs_target {World Contract : Type}
    (eth_contract : string -> string -> exn + Contract)
    (abi_cnf : gmap string (gmap string string))
    (contracts_cnf : gmap string (list (string * string)))
    (configuration : gmap string string) (name : string) (s : state World) :
  configuration !! "target" = None
  \/ (exists by_target : string,
        configuration !! "target" = Some by_target
        /\ contracts_cnf !! by_target = None) ->
  contracts eth_contract abi_cnf contracts_cnf configuration s
  = (Raise (PyException "KeyError"), s)
  /\ contract eth_contract abi_cnf contracts_cnf configuration name s
     = (Ret None, skipped s).
Proof.
  intros Hmissing. split.
  - unfold contracts, bind, lift_result, dict_getitem.
    destruct Hmissing as [-> | (by_target & -> & ->)]; reflexivity.
  - destruct (contract_run eth_contract abi_cnf contracts_cnf configuration
                name s) as [(c & _ & Hconf) | [Hrun _]]; [| exact Hrun].
    destruct Hconf as (t & a & _ & _ & _ & Ht & Ha & _).
    destruct Hmissing as [Hm | (t' & Hm & Hm')]; congruence.
Qed.

Lemma contracts_needs_target_witness :
  ((∅ : gmap string string) !! "target" = None
   \/ (exists by_target : string,
         (∅ : gmap string string) !! "target" = Some by_target
         /\ Lab.contracts_cnf !! by_target = None))
  /\ contracts Lab.eth_contract Lab.abi_cnf Lab.contracts_cnf ∅ Sim.start
     = (Raise (PyException "KeyError"), Sim.start)
  /\ contract Lab.eth_contract Lab.abi_cnf Lab.contracts_cnf ∅
       "DataSpotting" Sim.start
     = (Ret None, skipped Sim.start).
Proof.
  split; [left; reflexivity |].
  apply (contracts_needs_target Lab.eth_contract Lab.abi_cnf Lab.contracts_cnf
           ∅ "DataSpotting" Sim.start).
  left. reflexivity.
Defined.

(** ** send_raw_transaction without a baseline *)

(** X19.  When the read of the baseline count fails with an [Exception],
    [send_raw_transaction] sends nothing: it logs the error, logs
    "A transaction has been confirmed" and returns its dict, the read
    being its only remote call. *)
Theorem send_raw_transaction_without_baseline {World : Type}
    (elapse : Q -> World -> World) (write_web3 read_web3 : web3 World)
    (transaction : SignedTransaction) (worker_address : string)
    (s : state World) (e : exn) (w : World) :
  eth_get_transaction_count read_web3 worker_address (world s) = (inl e, w) ->
  is_Exception e = true ->
  send_raw_transaction elapse transaction write_web3 read_web3 worker_address s
  = (Ret no_result,
     {| world := w; gas_cache := gas_cache s;
        trace := trace s
                 ++ [EvGetTransactionCount worker_address (inl e);
                     EvLog ERROR "Error sending transaction : {e}";
                     EvLog INFO "A transaction has been confirmed"] |}).
Proof.
  intros Hget He.
  unfold send_raw_transaction.
  unfold bind at 1. unfold try_except.
  unfold bind at 1, get_transaction_count, remote. rewrite Hget.
  cbv beta iota zeta. rewrite He.
  unfold bind, logging, ret, no_result. cbn [world gas_cache trace].
  now rewrite <- !app_assoc.
Qed.

Lemma send_raw_transaction_without_baseline_witness :
  eth_get_transaction_count Sim.offline Sim.worker (world Sim.start)
    = (inl (PyException "ClientConnectorError"), 1)
  /\ is_Exception (PyException "ClientConnectorError") = true
  /\ send_raw_transaction Sim.elapse Sim.signed Sim.offline Sim.offline
       Sim.worker Sim.start
     = (Ret no_result,
        {| world := 1; gas_cache := gas_cache Sim.start;
           trace := trace Sim.start
                    ++ [EvGetTransactionCount Sim.worker
                          (inl (PyException "ClientConnectorError"));
                        EvLog ERROR "Error sending transaction : {e}";
                        EvLog INFO "A transaction has been confirmed"] |}).
Proof.
  split; [reflexivity | split; [reflexivity |]].
  apply (send_raw_transaction_without_baseline Sim.elapse Sim.offline
           Sim.offline Sim.signed Sim.worker Sim.start
           (PyException "ClientConnectorError") 1); reflexivity.
Defined.
